(** * Battle Mechanics Resolution Engine (poke-env, batch calculator script)

    A shallow embedding of the batch script of [apps/web/vite.config.ts]
    (third document, lines 134-336): the entity builders, the speed
    resolver, the stat query, the damage resolver and the dispatch loop.

    The script is JavaScript over a parsed JSON payload.  The calculator
    library it imports ([@smogon/calc]: [Generations], [Pokemon], [Move],
    [Field], [calculate]) is not part of the repository; it is taken as
    an [Oracle], a record of pure functions that may fail. *)

From Stdlib Require Import ZArith String Ascii List Bool Lia.
From stdpp Require Import base option list gmap strings pretty.

Local Open Scope string_scope.
Local Open Scope Z_scope.

(** ** JavaScript values *)

(** What [JSON.parse] yields, plus [undefined] (the value of a missing
    property).  Numbers are the integers of the game domain (levels, EVs,
    IVs, boost stages, stat values).  An object is a finite map from
    property names to values. *)
#[warnings="-register-all"] Inductive value : Type :=
| VUndefined
| VNull
| VBool (b : bool)
| VNum (n : Z)
| VStr (s : string)
| VArr (l : list value)
| VObj (m : gmap string value).

(** [ToBoolean]: what [!x], [x || y] and [x ? a : b] test. *)
Definition truthy (v : value) : bool :=
  match v with
  | VUndefined | VNull => false
  | VBool b => b
  | VNum n => negb (n =? 0)
  | VStr s => negb (String.eqb s "")
  | VArr _ | VObj _ => true
  end.

(** [a || b] *)
Definition js_or (a b : value) : value := if truthy a then a else b.

(** ** Exceptions *)

(** What the calculator library throws: an [Error] with its message, or
    any other value, kept as the text [String(v)] renders it to. *)
Inductive oracle_failure : Type :=
| OracleError (message : string)
| OracleThrew (text : string).

(** What can be thrown while the script runs: its own [new Error(...)],
    a [TypeError] of the runtime (a property read on [undefined] or
    [null], a [for-of] over a value that is not iterable), or whatever
    the library throws. *)
Inductive thrown : Type :=
| ScriptError (message : string)
| TypeError (message : string)
| FromOracle (f : oracle_failure).

(** [error instanceof Error ? error.message : String(error)] *)
Definition catch_message (e : thrown) : string :=
  match e with
  | ScriptError m | TypeError m => m
  | FromOracle (OracleError m) => m
  | FromOracle (OracleThrew t) => t
  end.

Definition exc (A : Type) : Type := thrown + A.
Definition oracle_outcome (A : Type) : Type := oracle_failure + A.

Definition ret {A} (a : A) : exc A := inr a.
Definition throw {A} (e : thrown) : exc A := inl e.
Definition bind {A B} (c : exc A) (k : A -> exc B) : exc B :=
  match c with
  | inl e => inl e
  | inr a => k a
  end.
Definition call {A} (c : oracle_outcome A) : exc A :=
  match c with
  | inl f => inl (FromOracle f)
  | inr a => inr a
  end.

Notation "'let!' x ':=' c 'in' k" := (bind c (fun x => k))
  (at level 10, x name, c at level 100, k at level 200).

(** ** Property access and object spread *)

(** [v.k] for the fixed property names of the script (none of them is an
    index or [length], so arrays and strings have no such property).
    Reading a property of [undefined] or [null] throws. *)
Definition getProp (v : value) (k : string) : exc value :=
  match v with
  | VUndefined =>
      throw (TypeError ("Cannot read properties of undefined (reading '" ++ k ++ "')"))
  | VNull =>
      throw (TypeError ("Cannot read properties of null (reading '" ++ k ++ "')"))
  | VObj m => ret (default VUndefined (m !! k))
  | VBool _ | VNum _ | VStr _ | VArr _ => ret VUndefined
  end.

(** [v?.k]: [undefined] where [v] is [undefined] or [null]. *)
Definition getOpt (v : value) (k : string) : value :=
  match v with
  | VObj m => default VUndefined (m !! k)
  | _ => VUndefined
  end.

(** A string is kept as the bytes of its UTF-8 text, which is how the
    script reads its input: one to four bytes a code point, a surrogate
    pair being the four bytes of its code point.  A lone surrogate, which
    a JSON escape can produce, is kept as the three bytes the same scheme
    gives it.  JavaScript itself sees a string as UTF-16 code units:
    [for-of] walks it by code point, index keys and spread by code
    unit. *)

(** A byte [10xxxxxx], which continues a multi-byte sequence. *)
Definition isContinuation (c : ascii) : bool :=
  let n := N_of_ascii c in ((128 <=? n) && (n <? 192))%N.

(** The byte sequences of the code points of a string, in order: each
    byte that is not a continuation starts a new one. *)
Fixpoint sequences (s : string) : list string :=
  match s with
  | EmptyString => []
  | String c s' =>
      match sequences s' with
      | String c' u :: rest =>
          if isContinuation c' then String c (String c' u) :: rest
          else String c EmptyString :: String c' u :: rest
      | rest => String c EmptyString :: rest
      end
  end.

(** What [for-of] yields for a string: its code points, each as a
    string. *)
Definition codePoints (s : string) : list value := map VStr (sequences s).

(** The code unit [u] (a surrogate) as a string of its own. *)
Definition surrogate (u : N) : string :=
  String (ascii_of_N (N.lor 224 (N.shiftr u 12)))
    (String (ascii_of_N (N.lor 128 (N.land (N.shiftr u 6) 63)))
      (String (ascii_of_N (N.lor 128 (N.land u 63))) EmptyString)).

(** The UTF-16 code units of one code point: a code point above U+FFFF
    (four bytes) is a pair of surrogates, any other is one unit. *)
Definition utf16 (u : string) : list string :=
  match u with
  | String b0 (String b1 (String b2 (String b3 EmptyString))) =>
      if (240 <=? N_of_ascii b0)%N then
        let cp :=
          N.lor (N.shiftl (N.land (N_of_ascii b0) 7) 18)
            (N.lor (N.shiftl (N.land (N_of_ascii b1) 63) 12)
              (N.lor (N.shiftl (N.land (N_of_ascii b2) 63) 6)
                (N.land (N_of_ascii b3) 63))) in
        let v := (cp - 65536)%N in
        [surrogate (55296 + N.shiftr v 10)%N; surrogate (56320 + N.land v 1023)%N]
      else [u]
  | _ => [u]
  end.

(** The code units of a string, each as a string: what [s[i]] reads. *)
Definition codeUnits (s : string) : list value :=
  map VStr (flat_map utf16 (sequences s)).

Definition indexed (l : list value) : gmap string value :=
  list_to_map (imap (fun i v => (pretty i, v)) l).

(** The own enumerable properties [{...v}] copies: those of an object,
    the elements of an array and the code units of a string under their
    indices, nothing for the other values. *)
Definition ownProps (v : value) : gmap string value :=
  match v with
  | VObj m => m
  | VArr l => indexed l
  | VStr s => indexed (codeUnits s)
  | VUndefined | VNull | VBool _ | VNum _ => ∅
  end.

(** [{...a, ...b}]: the properties of [b] override those of [a]. *)
Definition spread (a b : gmap string value) : gmap string value := b ∪ a.

(** [v === 'k'] for a string literal. *)
Definition isStr (v : value) (k : string) : bool :=
  match v with
  | VStr s => String.eqb s k
  | _ => false
  end.

(** [!data || !data.k]: the property is read only from a truthy [data]. *)
Definition missing (data : value) (k : string) : exc bool :=
  if truthy data
  then let! x := getProp data k in ret (negb (truthy x))
  else ret true.

(** ** The calculator library's interface *)

Module StatsTable.
Record t : Type := { hp : Z; atk : Z; def : Z; spa : Z; spd : Z; spe : Z }.
End StatsTable.

(** The options object handed to [new Pokemon(gen, name, options)]; a key
    the literal does not list reads as [undefined]. *)
Module PokemonOptions.
Record t : Type := {
  level : value; ability : value; item : value; nature : value;
  evs : value; ivs : value; boosts : value; status : value;
  teraType : value; moves : value; curHP : value; originalCurHP : value }.
End PokemonOptions.

(** The options object handed to [new Move(gen, name, options)]. *)
Module MoveOptions.
Record t : Type := {
  useZ : value; useMax : value; isCrit : value; isStellarFirstUse : value;
  hits : value; timesUsed : value; timesUsedWithMetronome : value }.
End MoveOptions.

(** What the script uses of [@smogon/calc].  The constructors of
    [Pokemon] and [Move], [calculate] and the methods of its result may
    throw; the fields the script reads from a built [Pokemon]
    ([rawStats], [stats], [species.name], [species.baseStats.spe],
    [level]) and [result.damage] are plain reads.  Stat values are
    integers.  [Generations.get] and [new Field(...)] only wrap what they
    are given and do not throw. *)
Module Calc.
Record Oracle (Gen Pokemon Move Field Result : Type) : Type := {
  Generations_get : value -> Gen;
  new_Pokemon : Gen -> value -> PokemonOptions.t -> oracle_outcome Pokemon;
  rawStats : Pokemon -> StatsTable.t;
  stats : Pokemon -> StatsTable.t;
  species_name : Pokemon -> string;
  species_baseStats_spe : Pokemon -> Z;
  level : Pokemon -> Z;
  new_Move : Gen -> value -> MoveOptions.t -> oracle_outcome Move;
  new_Field : value -> Field;
  calculate : Gen -> Pokemon -> Pokemon -> Move -> Field -> oracle_outcome Result;
  damage : Result -> value;
  range : Result -> oracle_outcome (list value);
  desc : Result -> oracle_outcome string;
  fullDesc : Result -> oracle_outcome string;
  kochance : Result -> oracle_outcome value }.
Arguments Generations_get {_ _ _ _ _} _ _.
Arguments new_Pokemon {_ _ _ _ _} _ _ _ _.
Arguments rawStats {_ _ _ _ _} _ _.
Arguments stats {_ _ _ _ _} _ _.
Arguments species_name {_ _ _ _ _} _ _.
Arguments species_baseStats_spe {_ _ _ _ _} _ _.
Arguments level {_ _ _ _ _} _ _.
Arguments new_Move {_ _ _ _ _} _ _ _ _.
Arguments new_Field {_ _ _ _ _} _ _.
Arguments calculate {_ _ _ _ _} _ _ _ _ _ _.
Arguments damage {_ _ _ _ _} _ _.
Arguments range {_ _ _ _ _} _ _.
Arguments desc {_ _ _ _ _} _ _.
Arguments fullDesc {_ _ _ _ _} _ _.
Arguments kochance {_ _ _ _ _} _ _.
End Calc.

(** ** Results of the three handlers *)

Module StatsResult.
Record t : Type := {
  hp : Z; atk : Z; def : Z; spa : Z; spd : Z; spe : Z;
  boostedSpe : Z; species : string; level : Z }.
End StatsResult.

Inductive verdict : Type := POKEMON1_FASTER | POKEMON2_FASTER | SPEED_TIE.

Module SpeedSummary.
Record t : Type := {
  name : string; baseSpe : Z; rawSpe : Z; effectiveSpe : Z; boosts : value }.
End SpeedSummary.

Module SpeedResult.
Record t : Type := {
  pokemon1 : SpeedSummary.t; pokemon2 : SpeedSummary.t; verdict : verdict }.
End SpeedResult.

Module SpeedStats.
Record t : Type := { spe : Z; boostedSpe : Z }.
End SpeedStats.

Module DamageResult.
Record t : Type := {
  damage : value; range : list value; desc : string; full_desc : string;
  ko : value; attacker_stats : SpeedStats.t; defender_stats : SpeedStats.t }.
End DamageResult.

Inductive result : Type :=
| StatsOf (r : StatsResult.t)
| SpeedOf (r : SpeedResult.t)
| DamageOf (r : DamageResult.t).

(** One element of [results]: [{ok: true, result}] or [{ok: false, error}]. *)
Inductive outcome : Type :=
| ok_true (result : result)
| ok_false (error : string).

Record output : Type := { results : list outcome }.

(** ** The script *)

(** [{ hp: 0, atk: 0, def: 0, spa: 0, spd: 0, spe: 252 }], line 176. *)
Definition maxSpeedEvs : value :=
  VObj {[ "hp" := VNum 0; "atk" := VNum 0; "def" := VNum 0;
          "spa" := VNum 0; "spd" := VNum 0; "spe" := VNum 252 ]}.

(** [{ hp: 31, atk: 31, def: 31, spa: 31, spd: 31, spe: 31 }], line 177. *)
Definition maxSpeedIvs : value :=
  VObj {[ "hp" := VNum 31; "atk" := VNum 31; "def" := VNum 31;
          "spa" := VNum 31; "spd" := VNum 31; "spe" := VNum 31 ]}.

Section Script.
Context {Gen Pokemon Move Field Result : Type}.
Variable O : Calc.Oracle Gen Pokemon Move Field Result.

(** [buildPokemon(data)], lines 141-160. *)
Definition buildPokemon (gen : Gen) (data : value) : exc Pokemon :=
  let! noName := missing data "name" in
  if (noName : bool) then throw (ScriptError "Pokemon data missing name")
  else
    let! name := getProp data "name" in
    let! level := getProp data "level" in
    let! ability := getProp data "ability" in
    let! item := getProp data "item" in
    let! nature := getProp data "nature" in
    let! evs := getProp data "evs" in
    let! ivs := getProp data "ivs" in
    let! boosts := getProp data "boosts" in
    let! status := getProp data "status" in
    let! teraType := getProp data "teraType" in
    let! moves := getProp data "moves" in
    let! curHP := getProp data "curHP" in
    let! originalCurHP := getProp data "originalCurHP" in
    call (Calc.new_Pokemon O gen name
      {| PokemonOptions.level := level;
         PokemonOptions.ability := ability;
         PokemonOptions.item := item;
         PokemonOptions.nature := nature;
         PokemonOptions.evs := evs;
         PokemonOptions.ivs := ivs;
         PokemonOptions.boosts := boosts;
         PokemonOptions.status := status;
         PokemonOptions.teraType := teraType;
         PokemonOptions.moves := moves;
         PokemonOptions.curHP := curHP;
         PokemonOptions.originalCurHP := originalCurHP |}).

(** [buildMaxSpeedPokemon(data)], lines 166-181. *)
Definition buildMaxSpeedPokemon (gen : Gen) (data : value) : exc Pokemon :=
  let! noName := missing data "name" in
  if (noName : bool) then throw (ScriptError "Pokemon data missing name")
  else
    let! name := getProp data "name" in
    let! level := getProp data "level" in
    let! ability := getProp data "ability" in
    let! item := getProp data "item" in
    let! boosts := getProp data "boosts" in
    let! status := getProp data "status" in
    call (Calc.new_Pokemon O gen name
      {| PokemonOptions.level := js_or level (VNum 100);
         PokemonOptions.ability := ability;
         PokemonOptions.item := item;
         PokemonOptions.nature := VStr "Jolly";
         PokemonOptions.evs := maxSpeedEvs;
         PokemonOptions.ivs := maxSpeedIvs;
         PokemonOptions.boosts := boosts;
         PokemonOptions.status := status;
         PokemonOptions.teraType := VUndefined;
         PokemonOptions.moves := VUndefined;
         PokemonOptions.curHP := VUndefined;
         PokemonOptions.originalCurHP := VUndefined |}).

(** [getStats(request)], lines 186-203. *)
Definition getStats (gen : Gen) (request : value) : exc StatsResult.t :=
  let! maxSpeed := getProp request "maxSpeed" in
  let! data := getProp request "pokemon" in
  let! pokemon :=
    (if truthy maxSpeed then buildMaxSpeedPokemon gen data
     else buildPokemon gen data) in
  ret {| StatsResult.hp := StatsTable.hp (Calc.rawStats O pokemon);
         StatsResult.atk := StatsTable.atk (Calc.rawStats O pokemon);
         StatsResult.def := StatsTable.def (Calc.rawStats O pokemon);
         StatsResult.spa := StatsTable.spa (Calc.rawStats O pokemon);
         StatsResult.spd := StatsTable.spd (Calc.rawStats O pokemon);
         StatsResult.spe := StatsTable.spe (Calc.rawStats O pokemon);
         StatsResult.boostedSpe := StatsTable.spe (Calc.stats O pokemon);
         StatsResult.species := Calc.species_name O pokemon;
         StatsResult.level := Calc.level O pokemon |}.

(** [buildMove(data)], lines 205-219. *)
Definition buildMove (gen : Gen) (data : value) : exc Move :=
  let! noName := missing data "name" in
  if (noName : bool) then throw (ScriptError "Move data missing name")
  else
    let! name := getProp data "name" in
    let! useZ := getProp data "useZ" in
    let! useMax := getProp data "useMax" in
    let! isCrit := getProp data "isCrit" in
    let! isStellarFirstUse := getProp data "isStellarFirstUse" in
    let! hits := getProp data "hits" in
    let! timesUsed := getProp data "timesUsed" in
    let! timesUsedWithMetronome := getProp data "timesUsedWithMetronome" in
    call (Calc.new_Move O gen name
      {| MoveOptions.useZ := useZ;
         MoveOptions.useMax := useMax;
         MoveOptions.isCrit := isCrit;
         MoveOptions.isStellarFirstUse := isStellarFirstUse;
         MoveOptions.hits := hits;
         MoveOptions.timesUsed := timesUsed;
         MoveOptions.timesUsedWithMetronome := timesUsedWithMetronome |}).

(** The [base] object of [buildField], lines 222-226. *)
Definition base : gmap string value :=
  {[ "gameType" := VStr "Singles";
     "attackerSide" := VObj ∅;
     "defenderSide" := VObj ∅ ]}.

(** [buildField(data)], lines 221-244. *)
Definition buildField (data : value) : exc Field :=
  if negb (truthy data) then ret (Calc.new_Field O (VObj base))
  else
    let! baseAttackerSide := getProp (VObj base) "attackerSide" in
    let! attackerSide := getProp data "attackerSide" in
    let! baseDefenderSide := getProp (VObj base) "defenderSide" in
    let! defenderSide := getProp data "defenderSide" in
    ret (Calc.new_Field O (VObj (
      <["defenderSide" :=
          VObj (spread (ownProps baseDefenderSide)
                       (ownProps (js_or defenderSide (VObj ∅))))]> (
      <["attackerSide" :=
          VObj (spread (ownProps baseAttackerSide)
                       (ownProps (js_or attackerSide (VObj ∅))))]> (
      spread base (ownProps data)))))).

(** [calcOne(request)], lines 246-271.  [[minDamage, maxDamage] =
    result.range()] takes the first two elements, [undefined] where the
    array is shorter. *)
Definition calcOne (gen : Gen) (request : value) : exc DamageResult.t :=
  let! attackerData := getProp request "attacker" in
  let! attacker := buildPokemon gen attackerData in
  let! defenderData := getProp request "defender" in
  let! defender := buildPokemon gen defenderData in
  let! moveData := getProp request "move" in
  let! move := buildMove gen moveData in
  let! fieldData := getProp request "field" in
  let! field := buildField fieldData in
  let! result := call (Calc.calculate O gen attacker defender move field) in
  let! rolls := call (Calc.range O result) in
  let minDamage := nth 0 rolls VUndefined in
  let maxDamage := nth 1 rolls VUndefined in
  let! ko := call (Calc.kochance O result) in
  let! desc := call (Calc.desc O result) in
  let! full_desc := call (Calc.fullDesc O result) in
  ret {| DamageResult.damage := Calc.damage O result;
         DamageResult.range := [minDamage; maxDamage];
         DamageResult.desc := desc;
         DamageResult.full_desc := full_desc;
         DamageResult.ko := ko;
         DamageResult.attacker_stats :=
           {| SpeedStats.spe := StatsTable.spe (Calc.rawStats O attacker);
              SpeedStats.boostedSpe := StatsTable.spe (Calc.stats O attacker) |};
         DamageResult.defender_stats :=
           {| SpeedStats.spe := StatsTable.spe (Calc.rawStats O defender);
              SpeedStats.boostedSpe := StatsTable.spe (Calc.stats O defender) |} |}.

(** The object literal [{ ...side, evs: side.evs || { spe: 252 },
    ivs: side.ivs || { spe: 31 } }] of lines 279 and 283. *)
Definition withSpeedDefaults (side : value) : exc value :=
  let! evs := getProp side "evs" in
  let! ivs := getProp side "ivs" in
  ret (VObj (
    <["ivs" := js_or ivs (VObj {[ "spe" := VNum 31 ]})]> (
    <["evs" := js_or evs (VObj {[ "spe" := VNum 252 ]})]> (
    ownProps side)))).

(** The comparison of lines 289-296. *)
Definition speedVerdict (spe1 spe2 : Z) : verdict :=
  if spe1 >? spe2 then POKEMON1_FASTER
  else if spe2 >? spe1 then POKEMON2_FASTER
  else SPEED_TIE.

(** [compareSpeed(request)], lines 277-315. *)
Definition compareSpeed (gen : Gen) (request : value) : exc SpeedResult.t :=
  let! side1 := getProp request "pokemon1" in
  let! actualStats1 := getProp side1 "actualStats" in
  let! pokemon1 :=
    (if truthy actualStats1
     then let! data := withSpeedDefaults side1 in buildPokemon gen data
     else buildMaxSpeedPokemon gen side1) in
  let! side2 := getProp request "pokemon2" in
  let! actualStats2 := getProp side2 "actualStats" in
  let! pokemon2 :=
    (if truthy actualStats2
     then let! data := withSpeedDefaults side2 in buildPokemon gen data
     else buildMaxSpeedPokemon gen side2) in
  let spe1 := StatsTable.spe (Calc.stats O pokemon1) in
  let spe2 := StatsTable.spe (Calc.stats O pokemon2) in
  let! boosts1 := getProp side1 "boosts" in
  let! boosts2 := getProp side2 "boosts" in
  ret {| SpeedResult.pokemon1 :=
           {| SpeedSummary.name := Calc.species_name O pokemon1;
              SpeedSummary.baseSpe := Calc.species_baseStats_spe O pokemon1;
              SpeedSummary.rawSpe := StatsTable.spe (Calc.rawStats O pokemon1);
              SpeedSummary.effectiveSpe := spe1;
              SpeedSummary.boosts := js_or (getOpt boosts1 "spe") (VNum 0) |};
         SpeedResult.pokemon2 :=
           {| SpeedSummary.name := Calc.species_name O pokemon2;
              SpeedSummary.baseSpe := Calc.species_baseStats_spe O pokemon2;
              SpeedSummary.rawSpe := StatsTable.spe (Calc.rawStats O pokemon2);
              SpeedSummary.effectiveSpe := spe2;
              SpeedSummary.boosts := js_or (getOpt boosts2 "spe") (VNum 0) |};
         SpeedResult.verdict := speedVerdict spe1 spe2 |}.

(** The [try] block of the loop, lines 322-330. *)
Definition dispatch (gen : Gen) (request : value) : exc result :=
  let! type := getProp request "type" in
  if isStr type "stats" then
    let! r := getStats gen request in ret (StatsOf r)
  else if isStr type "speed" then
    let! r := compareSpeed gen request in ret (SpeedOf r)
  else
    let! r := calcOne gen request in ret (DamageOf r).

(** The [try]/[catch] of one iteration, lines 321-333: what is pushed. *)
Definition attempt (gen : Gen) (request : value) : outcome :=
  match dispatch gen request with
  | inr r => ok_true r
  | inl e => ok_false (catch_message e)
  end.

(** [for (const request of requests) { ... results.push(...) }],
    lines 318-334: the array [results] starts empty and grows by one
    element an iteration. *)
Definition loop (gen : Gen) (requests : list value) : list outcome :=
  fold_left (fun results request => (results ++ [attempt gen request])%list)
            requests [].

(** What [for-of] iterates: the elements of an array, the code points
    of a string; any other value is not iterable. *)
Definition iterate (v : value) : exc (list value) :=
  match v with
  | VArr l => ret l
  | VStr s => ret (codePoints s)
  | VUndefined | VNull | VBool _ | VNum _ | VObj _ =>
      throw (TypeError "requests is not iterable")
  end.

(** The top level of the script, lines 139 and 317-336, from the parsed
    payload to the object written to standard output.  An exception
    here is not caught: the process ends without output. *)
Definition main (payload : value) : exc output :=
  let! genNum := getProp payload "gen" in
  let gen := Calc.Generations_get O (js_or genNum (VNum 9)) in
  let! requestsField := getProp payload "requests" in
  let! requests := iterate (js_or requestsField (VArr [])) in
  ret {| results := loop gen requests |}.

End Script.

(** ** Vocabulary of the properties *)

(** A combatant (or move) description is absent or has no usable [name]:
    the condition [!data || !data.name] as a total test. *)
Definition lacksName (data : value) : bool :=
  negb (truthy data) || negb (truthy (getOpt data "name")).


(** The computation throws. *)
Definition fails {A} (c : exc A) : Prop := exists e, c = inl e.

Definition is_ok (r : outcome) : bool :=
  match r with ok_true _ => true | ok_false _ => false end.


(** The options [buildPokemon] hands to the library for a description. *)
Definition actualOptions (data : value) : PokemonOptions.t :=
  {| PokemonOptions.level := getOpt data "level";
     PokemonOptions.ability := getOpt data "ability";
     PokemonOptions.item := getOpt data "item";
     PokemonOptions.nature := getOpt data "nature";
     PokemonOptions.evs := getOpt data "evs";
     PokemonOptions.ivs := getOpt data "ivs";
     PokemonOptions.boosts := getOpt data "boosts";
     PokemonOptions.status := getOpt data "status";
     PokemonOptions.teraType := getOpt data "teraType";
     PokemonOptions.moves := getOpt data "moves";
     PokemonOptions.curHP := getOpt data "curHP";
     PokemonOptions.originalCurHP := getOpt data "originalCurHP" |}.

(** The options [buildMaxSpeedPokemon] hands to the library. *)
Definition maxSpeedOptions (data : value) : PokemonOptions.t :=
  {| PokemonOptions.level := js_or (getOpt data "level") (VNum 100);
     PokemonOptions.ability := getOpt data "ability";
     PokemonOptions.item := getOpt data "item";
     PokemonOptions.nature := VStr "Jolly";
     PokemonOptions.evs := maxSpeedEvs;
     PokemonOptions.ivs := maxSpeedIvs;
     PokemonOptions.boosts := getOpt data "boosts";
     PokemonOptions.status := getOpt data "status";
     PokemonOptions.teraType := VUndefined;
     PokemonOptions.moves := VUndefined;
     PokemonOptions.curHP := VUndefined;
     PokemonOptions.originalCurHP := VUndefined |}.

(** The options [buildPokemon] receives through the object literal of
    [compareSpeed] for a side marked [actualStats]. *)
Definition defaultedOptions (side : value) : PokemonOptions.t :=
  {| PokemonOptions.level := getOpt side "level";
     PokemonOptions.ability := getOpt side "ability";
     PokemonOptions.item := getOpt side "item";
     PokemonOptions.nature := getOpt side "nature";
     PokemonOptions.evs := js_or (getOpt side "evs") (VObj {[ "spe" := VNum 252 ]});
     PokemonOptions.ivs := js_or (getOpt side "ivs") (VObj {[ "spe" := VNum 31 ]});
     PokemonOptions.boosts := getOpt side "boosts";
     PokemonOptions.status := getOpt side "status";
     PokemonOptions.teraType := getOpt side "teraType";
     PokemonOptions.moves := getOpt side "moves";
     PokemonOptions.curHP := getOpt side "curHP";
     PokemonOptions.originalCurHP := getOpt side "originalCurHP" |}.

(** The options [compareSpeed] hands to the library for one side. *)
Definition speedSideOptions (side : value) : PokemonOptions.t :=
  if truthy (getOpt side "actualStats") then defaultedOptions side
  else maxSpeedOptions side.

(** The two sides of a speed request and of its result. *)
Definition sideKey (first : bool) : string :=
  if first then "pokemon1" else "pokemon2".

Definition sideSummary (first : bool) (r : SpeedResult.t) : SpeedSummary.t :=
  if first then SpeedResult.pokemon1 r else SpeedResult.pokemon2 r.

(** The boost stage the script reports for a side: [side.boosts?.spe]. *)
Definition boostStage (side : value) : value :=
  getOpt (getOpt side "boosts") "spe".

(** The generation the script resolves for a payload, line 139. *)
Definition genOf {Gen Pokemon Move Field Result : Type}
    (O : Calc.Oracle Gen Pokemon Move Field Result) (payload : value) : Gen :=
  Calc.Generations_get O (js_or (getOpt payload "gen") (VNum 9)).

(** Two option objects give the same level, nature, EVs, IVs and speed
    boost stage. *)
Definition sameInvestment (o o' : PokemonOptions.t) : Prop :=
  PokemonOptions.level o = PokemonOptions.level o' /\
  PokemonOptions.nature o = PokemonOptions.nature o' /\
  PokemonOptions.evs o = PokemonOptions.evs o' /\
  PokemonOptions.ivs o = PokemonOptions.ivs o' /\
  getOpt (PokemonOptions.boosts o) "spe" = getOpt (PokemonOptions.boosts o') "spe".

Section OracleContracts.
Context {Gen Pokemon Move Field Result : Type}.
Variable O : Calc.Oracle Gen Pokemon Move Field Result.

(** The library's stat formula: the effective speed of a built Pokemon
    is a function of its species, level, nature, EVs, IVs and speed
    boost stage (spec 4.2); ability, item, status and the other options
    do not enter it. *)
Definition speed_by_investment : Prop :=
  forall gen name o o' p p',
    sameInvestment o o' ->
    Calc.new_Pokemon O gen name o = inr p ->
    Calc.new_Pokemon O gen name o' = inr p' ->
    StatsTable.spe (Calc.stats O p) = StatsTable.spe (Calc.stats O p').

(** The maximum-investment default with the explicit request at level
    100 whatever the description's own level (spec 8). *)
Definition maxDefault_at_level100 : Prop :=
  forall (first : bool) (gen : Gen) (request request' : value)
         (r r' : SpeedResult.t),
    let side := getOpt request (sideKey first) in
    let side' := getOpt request' (sideKey first) in
    truthy (getOpt side "actualStats") = false ->
    truthy (getOpt side' "actualStats") = true ->
    getOpt side' "name" = getOpt side "name" ->
    getOpt side' "level" = VNum 100 ->
    getOpt side' "nature" = VStr "Jolly" ->
    getOpt side' "evs" = maxSpeedEvs ->
    getOpt side' "ivs" = maxSpeedIvs ->
    boostStage side' = boostStage side ->
    compareSpeed O gen request = inr r ->
    compareSpeed O gen request' = inr r' ->
    SpeedSummary.effectiveSpe (sideSummary first r)
    = SpeedSummary.effectiveSpe (sideSummary first r').

(** [result.range()] is the pair of the lowest and the highest damage
    roll. *)
Definition range_ascending : Prop :=
  forall res rolls,
    Calc.range O res = inr rolls ->
    exists lo hi, rolls = [VNum lo; VNum hi] /\ lo <= hi.

(** What the constructor of [@smogon/calc] leaves in [stats]: it computes
    each stat once and stores the value under both [rawStats] and
    [stats].  The boost stages are kept beside them, in [boosts];
    [calculate] applies them, to copies of the two Pokemon it is
    given. *)
Definition stats_as_built : Prop :=
  forall gen name o p,
    Calc.new_Pokemon O gen name o = inr p ->
    Calc.stats O p = Calc.rawStats O p.
End OracleContracts.

(** ** A small calculator to run the script on

    Two species and the stat formula of the games (generation 3 on), a
    toy damage formula.  It instantiates the [Oracle] for the examples
    below; no theorem about the script depends on it.  [oracle] keeps in
    [stats] the stats with the boost stages applied, which is what the
    script's comments take [stats] for; [asBuilt] keeps there what the
    constructor of [@smogon/calc] does, the raw stats. *)
Module Sample.

Definition baseStats (species : string) : option StatsTable.t :=
  if String.eqb species "Garchomp" then
    Some {| StatsTable.hp := 108; StatsTable.atk := 130; StatsTable.def := 95;
            StatsTable.spa := 80; StatsTable.spd := 85; StatsTable.spe := 102 |}
  else if String.eqb species "Ninetales-Alola" then
    Some {| StatsTable.hp := 73; StatsTable.atk := 67; StatsTable.def := 75;
            StatsTable.spa := 81; StatsTable.spd := 100; StatsTable.spe := 109 |}
  else None.

Definition num (v : value) (dflt : Z) : Z :=
  match v with VNum n => n | _ => dflt end.

(** Percentage a nature applies to a stat. *)
Definition natureFactor (nature : value) (stat : string) : Z :=
  let up_down (up down : string) :=
    if String.eqb stat up then 110
    else if String.eqb stat down then 90 else 100 in
  if isStr nature "Jolly" then up_down "spe" "spa"
  else if isStr nature "Timid" then up_down "spe" "atk"
  else if isStr nature "Adamant" then up_down "atk" "spa"
  else 100.

Definition core (b level : Z) (o : PokemonOptions.t) (stat : string) : Z :=
  (2 * b + num (getOpt (PokemonOptions.ivs o) stat) 31
     + num (getOpt (PokemonOptions.evs o) stat) 0 / 4) * level / 100.

Definition calcStat (b level : Z) (o : PokemonOptions.t) (stat : string) : Z :=
  (core b level o stat + 5) * natureFactor (PokemonOptions.nature o) stat / 100.

Definition boosted (raw stage : Z) : Z :=
  if 0 <=? stage then raw * (2 + stage) / 2 else raw * 2 / (2 - stage).

Record pokemon : Type := {
  species : string; base : StatsTable.t; lvl : Z;
  raw : StatsTable.t; final : StatsTable.t }.

Definition build (name : string) (b : StatsTable.t) (o : PokemonOptions.t) : pokemon :=
  let level := num (PokemonOptions.level o) 100 in
  let stage k := num (getOpt (PokemonOptions.boosts o) k) 0 in
  let r :=
    {| StatsTable.hp := core (StatsTable.hp b) level o "hp" + level + 10;
       StatsTable.atk := calcStat (StatsTable.atk b) level o "atk";
       StatsTable.def := calcStat (StatsTable.def b) level o "def";
       StatsTable.spa := calcStat (StatsTable.spa b) level o "spa";
       StatsTable.spd := calcStat (StatsTable.spd b) level o "spd";
       StatsTable.spe := calcStat (StatsTable.spe b) level o "spe" |} in
  {| species := name; base := b; lvl := level; raw := r;
     final :=
       {| StatsTable.hp := StatsTable.hp r;
          StatsTable.atk := boosted (StatsTable.atk r) (stage "atk");
          StatsTable.def := boosted (StatsTable.def r) (stage "def");
          StatsTable.spa := boosted (StatsTable.spa r) (stage "spa");
          StatsTable.spd := boosted (StatsTable.spd r) (stage "spd");
          StatsTable.spe := boosted (StatsTable.spe r) (stage "spe") |} |}.

Definition new_Pokemon (gen : Z) (name : value) (o : PokemonOptions.t)
    : oracle_outcome pokemon :=
  match name with
  | VStr s =>
      match baseStats s with
      | Some b => inr (build s b o)
      | None => inl (OracleError ("unknown species " ++ s))
      end
  | _ => inl (OracleError "species name is not a string")
  end.

Definition new_Move (gen : Z) (name : value) (o : MoveOptions.t)
    : oracle_outcome (string * Z) :=
  if isStr name "Earthquake" then inr ("Earthquake", 100)
  else if isStr name "Moonblast" then inr ("Moonblast", 95)
  else inl (OracleError "unknown move").

(** Lowest and highest roll of a toy damage formula. *)
Definition calculate (gen : Z) (a d : pokemon) (m : string * Z) (f : value)
    : oracle_outcome (Z * Z) :=
  let top :=
    (2 * lvl a / 5 + 2) * snd m * StatsTable.atk (final a)
      / StatsTable.def (final d) / 50 + 2 in
  inr (top * 85 / 100, top).

Definition oracle : Calc.Oracle Z pokemon (string * Z) value (Z * Z) :=
  {| Calc.Generations_get := fun v => num v 9;
     Calc.new_Pokemon := new_Pokemon;
     Calc.rawStats := raw;
     Calc.stats := final;
     Calc.species_name := species;
     Calc.species_baseStats_spe := fun p => StatsTable.spe (base p);
     Calc.level := lvl;
     Calc.new_Move := new_Move;
     Calc.new_Field := fun v => v;
     Calc.calculate := calculate;
     Calc.damage := fun r => VArr [VNum (fst r); VNum (snd r)];
     Calc.range := fun r =>
       inr [VNum (Z.min (fst r) (snd r)); VNum (Z.max (fst r) (snd r))];
     Calc.desc := fun r => inr "sample";
     Calc.fullDesc := fun r => inr "sample";
     Calc.kochance := fun r => inr (VObj ∅) |}.

(** The same calculator with [stats] as the library's constructor
    leaves it: a copy of [rawStats]. *)
Definition asBuilt : Calc.Oracle Z pokemon (string * Z) value (Z * Z) :=
  {| Calc.Generations_get := Calc.Generations_get oracle;
     Calc.new_Pokemon := new_Pokemon;
     Calc.rawStats := raw;
     Calc.stats := raw;
     Calc.species_name := Calc.species_name oracle;
     Calc.species_baseStats_spe := Calc.species_baseStats_spe oracle;
     Calc.level := lvl;
     Calc.new_Move := new_Move;
     Calc.new_Field := Calc.new_Field oracle;
     Calc.calculate := calculate;
     Calc.damage := Calc.damage oracle;
     Calc.range := Calc.range oracle;
     Calc.desc := Calc.desc oracle;
     Calc.fullDesc := Calc.fullDesc oracle;
     Calc.kochance := Calc.kochance oracle |}.

Definition obj (l : list (string * value)) : value := VObj (list_to_map l).

Definition garchomp : value := obj [("name", VStr "Garchomp")].
Definition ninetales : value :=
  obj [("name", VStr "Ninetales-Alola"); ("boosts", obj [("spe", VNum 2)])].
Definition speedRequest (side1 side2 : value) : value :=
  obj [("type", VStr "speed"); ("pokemon1", side1); ("pokemon2", side2)].
Definition damageRequest (attacker defender move : value) : value :=
  obj [("attacker", attacker); ("defender", defender); ("move", move)].
Definition batch (requests : list value) : value :=
  obj [("requests", VArr requests)].

Definition earthquake : value := obj [("name", VStr "Earthquake")].

(** A speed request, a damage request whose defender has no name, a
    damage request. *)
Definition requests0 : list value :=
  [ speedRequest garchomp ninetales;
    damageRequest garchomp (obj []) earthquake;
    damageRequest garchomp garchomp earthquake ].
Definition payload0 : value := batch requests0.

(** Two Garchomp that differ in item and ability only. *)
Definition tieRequest : value :=
  speedRequest
    (obj [("name", VStr "Garchomp"); ("item", VStr "Life Orb")])
    (obj [("name", VStr "Garchomp"); ("ability", VStr "Rough Skin")]).

(** A level-50 Garchomp of unknown investment, and the same with its
    maximum-speed investment written out, at level 50 and at level 100. *)
Definition unknown50 : value :=
  speedRequest (obj [("name", VStr "Garchomp"); ("level", VNum 50)]) garchomp.
Definition explicitAt (level : Z) : value :=
  speedRequest
    (obj [("name", VStr "Garchomp"); ("actualStats", VBool true);
          ("level", VNum level); ("nature", VStr "Jolly");
          ("evs", maxSpeedEvs); ("ivs", maxSpeedIvs)])
    garchomp.

(** A stats request with boosts on attack and speed. *)
Definition boostedStats : value :=
  obj [("type", VStr "stats");
       ("pokemon", obj [("name", VStr "Garchomp");
                        ("boosts", obj [("atk", VNum 2); ("spe", VNum 1)])])].

(** Garchomp at +1 speed, of unknown investment, against an unboosted
    Ninetales-Alola; and the same Garchomp attacking. *)
Definition garchompPlusOne : value :=
  obj [("name", VStr "Garchomp"); ("boosts", obj [("spe", VNum 1)])].
Definition boostedFirst : value :=
  speedRequest garchompPlusOne (obj [("name", VStr "Ninetales-Alola")]).
Definition boostedAttacker : value :=
  damageRequest garchompPlusOne garchomp earthquake.

End Sample.

(** ** More vocabulary: moves, mirrored speed requests *)

(** The options [buildMove] hands to the library for a description. *)
Definition moveOptions (data : value) : MoveOptions.t :=
  {| MoveOptions.useZ := getOpt data "useZ";
     MoveOptions.useMax := getOpt data "useMax";
     MoveOptions.isCrit := getOpt data "isCrit";
     MoveOptions.isStellarFirstUse := getOpt data "isStellarFirstUse";
     MoveOptions.hits := getOpt data "hits";
     MoveOptions.timesUsed := getOpt data "timesUsed";
     MoveOptions.timesUsedWithMetronome := getOpt data "timesUsedWithMetronome" |}.

(** A speed request with its two sides exchanged. *)
Definition swapSides (request : value) : value :=
  match request with
  | VObj m =>
      VObj (<["pokemon2" := getOpt request "pokemon1"]> (
            <["pokemon1" := getOpt request "pokemon2"]> m))
  | _ => request
  end.

Definition flipVerdict (v : verdict) : verdict :=
  match v with
  | POKEMON1_FASTER => POKEMON2_FASTER
  | POKEMON2_FASTER => POKEMON1_FASTER
  | SPEED_TIE => SPEED_TIE
  end.

(** A speed result read from the other side. *)
Definition mirror (r : SpeedResult.t) : SpeedResult.t :=
  {| SpeedResult.pokemon1 := SpeedResult.pokemon2 r;
     SpeedResult.pokemon2 := SpeedResult.pokemon1 r;
     SpeedResult.verdict := flipVerdict (SpeedResult.verdict r) |}.

(** [undefined] or [null]. *)
Definition nullish (v : value) : bool :=
  match v with
  | VUndefined | VNull => true
  | _ => false
  end.

(** The messages of the script's own two [throw] statements. *)
Definition pokemonNameError : string := "Pokemon data missing name".
Definition moveNameError : string := "Move data missing name".

(** The runtime's message for reading property [key] of [undefined] or
    [null]. *)
Definition cannotRead (what key : string) : string :=
  "Cannot read properties of " ++ what ++ " (reading '" ++ key ++ "')".

(** The exceptions one request can end in: the two validation errors, a
    TypeError for reading [type] or [actualStats] of [undefined] or
    [null], or a failure of the library. *)
Definition requestThrow (e : thrown) : Prop :=
  e = ScriptError pokemonNameError \/
  e = ScriptError moveNameError \/
  (exists what key : string,
     (what = "undefined" \/ what = "null") /\
     (key = "type" \/ key = "actualStats") /\
     e = TypeError (cannotRead what key)) \/
  (exists f : oracle_failure, e = FromOracle f).

(** ** The earlier batch script

    The second document of [apps/web/vite.config.ts] (lines 35-133): the
    damage calculator before the stat and speed queries were added.  Its
    [buildPokemon], [buildMove] and [buildField] are, word for word, those
    of the later script; [calcOne] returns no speed stats and the loop
    sends every request to [calcOne]. *)
Module Legacy.

Record damageResult : Type := {
  damage : value; range : list value; desc : string; full_desc : string;
  ko : value }.

Inductive outcome : Type :=
| ok_true (result : damageResult)
| ok_false (error : string).

Record output : Type := { results : list outcome }.

Section Script.
Context {Gen Pokemon Move Field Result : Type}.
Variable O : Calc.Oracle Gen Pokemon Move Field Result.

(** [calcOne(request)], lines 104-120. *)
Definition calcOne (gen : Gen) (request : value) : exc damageResult :=
  let! attackerData := getProp request "attacker" in
  let! attacker := buildPokemon O gen attackerData in
  let! defenderData := getProp request "defender" in
  let! defender := buildPokemon O gen defenderData in
  let! moveData := getProp request "move" in
  let! move := buildMove O gen moveData in
  let! fieldData := getProp request "field" in
  let! field := buildField O fieldData in
  let! result := call (Calc.calculate O gen attacker defender move field) in
  let! rolls := call (Calc.range O result) in
  let minDamage := nth 0 rolls VUndefined in
  let maxDamage := nth 1 rolls VUndefined in
  let! ko := call (Calc.kochance O result) in
  let! desc := call (Calc.desc O result) in
  let! full_desc := call (Calc.fullDesc O result) in
  ret {| damage := Calc.damage O result;
         range := [minDamage; maxDamage];
         desc := desc;
         full_desc := full_desc;
         ko := ko |}.

(** The [try]/[catch] of one iteration, lines 126-130. *)
Definition attempt (gen : Gen) (request : value) : outcome :=
  match calcOne gen request with
  | inr r => ok_true r
  | inl e => ok_false (catch_message e)
  end.

(** The loop of lines 122-131. *)
Definition loop (gen : Gen) (requests : list value) : list outcome :=
  fold_left (fun results request => (results ++ [attempt gen request])%list)
            requests [].

(** The top level, lines 40 and 122-133. *)
Definition main (payload : value) : exc output :=
  let! genNum := getProp payload "gen" in
  let gen := Calc.Generations_get O (js_or genNum (VNum 9)) in
  let! requestsField := getProp payload "requests" in
  let! requests := iterate (js_or requestsField (VArr [])) in
  ret {| results := loop gen requests |}.

End Script.
End Legacy.

(** What the later script's outcome keeps of the earlier one's: the same
    flag and message, the same damage fields. *)
Definition forgetSpeeds (r : outcome) : option Legacy.outcome :=
  match r with
  | ok_true (DamageOf d) =>
      Some (Legacy.ok_true
              {| Legacy.damage := DamageResult.damage d;
                 Legacy.range := DamageResult.range d;
                 Legacy.desc := DamageResult.desc d;
                 Legacy.full_desc := DamageResult.full_desc d;
                 Legacy.ko := DamageResult.ko d |})
  | ok_true _ => None
  | ok_false msg => Some (Legacy.ok_false msg)
  end.

(** A request the later script handles as a damage calculation. *)
Definition damageTyped (request : value) : bool :=
  negb (isStr (getOpt request "type") "stats")
  && negb (isStr (getOpt request "type") "speed").

Section Summaries.
Context {Gen Pokemon Move Field Result : Type}.
Variable O : Calc.Oracle Gen Pokemon Move Field Result.

(** The per-side summary literal of [compareSpeed], lines 299-305 and
    306-312, for the Pokemon built for a side. *)
Definition summaryOf (pokemon : Pokemon) (side : value) : SpeedSummary.t :=
  {| SpeedSummary.name := Calc.species_name O pokemon;
     SpeedSummary.baseSpe := Calc.species_baseStats_spe O pokemon;
     SpeedSummary.rawSpe := StatsTable.spe (Calc.rawStats O pokemon);
     SpeedSummary.effectiveSpe := StatsTable.spe (Calc.stats O pokemon);
     SpeedSummary.boosts := js_or (boostStage side) (VNum 0) |}.

(** The object [compareSpeed] returns, lines 298-314, for the two built
    Pokemon. *)
Definition speedResultOf (pokemon1 pokemon2 : Pokemon) (side1 side2 : value)
    : SpeedResult.t :=
  {| SpeedResult.pokemon1 := summaryOf pokemon1 side1;
     SpeedResult.pokemon2 := summaryOf pokemon2 side2;
     SpeedResult.verdict :=
       speedVerdict (StatsTable.spe (Calc.stats O pokemon1))
                    (StatsTable.spe (Calc.stats O pokemon2)) |}.

(** The object [getStats] returns, lines 191-202, for the built Pokemon. *)
Definition statsOf (pokemon : Pokemon) : StatsResult.t :=
  {| StatsResult.hp := StatsTable.hp (Calc.rawStats O pokemon);
     StatsResult.atk := StatsTable.atk (Calc.rawStats O pokemon);
     StatsResult.def := StatsTable.def (Calc.rawStats O pokemon);
     StatsResult.spa := StatsTable.spa (Calc.rawStats O pokemon);
     StatsResult.spd := StatsTable.spd (Calc.rawStats O pokemon);
     StatsResult.spe := StatsTable.spe (Calc.rawStats O pokemon);
     StatsResult.boostedSpe := StatsTable.spe (Calc.stats O pokemon);
     StatsResult.species := Calc.species_name O pokemon;
     StatsResult.level := Calc.level O pokemon |}.
End Summaries.

(** ** The synthetic match tables of the web app

    [apps/web/src/data/pokebench.ts], lines 1-28 and 195-237: the pool of
    team members and the generator of an agent's hundred sample matches.
    Numbers are the integers the module is used with (percentages, seeds,
    indices), as the doubles JavaScript keeps them in: a sum or product
    is rounded to the nearest double. *)
Module Pokebench.

(** [Number.MAX_SAFE_INTEGER], 2^53 - 1: up to it (and at 2^53) every
    integer is a double. *)
Definition MAX_SAFE_INTEGER : Z := 9007199254740991.

(** The double nearest to the integer [z], a tie going to the even
    significand: an integer of at most 53 bits is a double; a longer one
    is rounded to a multiple of the power of two that leaves 53 bits. *)
Definition double (z : Z) : Z :=
  let a := Z.abs z in
  if a <=? MAX_SAFE_INTEGER then z
  else
    let ulp := 2 ^ (Z.log2 a - 52) in
    let q := a / ulp in
    let r := a mod ulp in
    let q' :=
      if 2 * r <? ulp then q
      else if ulp <? 2 * r then q + 1
      else if Z.even q then q else q + 1 in
    Z.sgn z * (q' * ulp).

(** [a + b] and [a * b] on integer-valued doubles. *)
Definition add (a b : Z) : Z := double (a + b).
Definition mul (a b : Z) : Z := double (a * b).

Definition teamPool : list string :=
  [ "Dragapult"; "Great Tusk"; "Gholdengo"; "Kingambit"; "Iron Valiant";
    "Walking Wake"; "Ting-Lu"; "Garganacl"; "Skeledirge"; "Roaring Moon";
    "Baxcalibur"; "Ogerpon-Wellspring"; "Iron Bundle"; "Raging Bolt";
    "Landorus-Therian"; "Zamazenta"; "Enamorus"; "Ursaluna"; "Primarina";
    "Hatterene"; "Samurott-Hisui"; "Gliscor"; "Serperior"; "Heatran" ].

Definition matchCount : Z := 100.

(** [l.slice(start, end)]: a negative bound counts from the end, bounds
    are clamped to the list. *)
Definition slice {A} (l : list A) (start finish : Z) : list A :=
  let len := Z.of_nat (length l) in
  let from := if start <? 0 then Z.max (len + start) 0 else Z.min start len in
  let to := if finish <? 0 then Z.max (len + finish) 0 else Z.min finish len in
  take (Z.to_nat (to - from)) (drop (Z.to_nat from) l).

(** [shuffledSlice(offset)], lines 195-198; [%] is the remainder with the
    sign of the dividend. *)
Definition shuffledSlice (offset : Z) : list string :=
  let start := Z.rem offset (Z.of_nat (length teamPool) - 6) in
  slice teamPool start (start + 6).

(** [Math.round(n / d)] for integers [n] and [d > 0]: the nearest
    integer, halves upwards. *)
Definition roundDiv (n d : Z) : Z := (2 * n + d) / (2 * d).

(** [Array(n).fill(x)]: a RangeError ([None]) unless [n] is a valid array
    length. *)
Definition filled {A} (n : Z) (x : A) : option (list A) :=
  if (0 <=? n) && (n <=? 4294967295) then Some (repeat x (Z.to_nat n))
  else None.

(** [l[i]], [undefined] ([None]) out of range. *)
Definition at_index {A} (l : list A) (i : Z) : option A :=
  if i <? 0 then None else l !! Z.to_nat i.

(** [s.padStart(2, '0')] *)
Definition padStart2 (s : string) : string :=
  match String.length s with
  | O => "00" ++ s
  | S O => "0" ++ s
  | _ => s
  end.

Record sampleMatch : Type := {
  id : string;
  outcome : string;
  termination : option string;
  turns : Z;
  agentTeam : list string;
  opponentTeam : list string;
  replayUrl : string;
  timestamp : string }.

(** The callback of [Array.from], lines 218-236, for the buckets built
    before it; [Array.from] calls it at the indices below [matchCount]
    and at no other.  [%] is exact on doubles. *)
Definition matchAt (agentId : string) (winRate seed : Z)
    (terminationBuckets : list string) (index : Z) : sampleMatch :=
  let terminationType :=
    at_index terminationBuckets
      (Z.rem (add (mul index 7) seed) (Z.of_nat (length terminationBuckets))) in
  let win := Z.rem (add (mul index 13) seed) 100 <? winRate in
  let outcome :=
    if bool_decide (terminationType = Some "timeout") then "Loss"
    else if win then "Win" else "Loss" in
  let turns := Z.max 8 (add 16 (Z.rem (add (mul index 5) seed) 9)) in
  {| id := agentId ++ "-match-" ++ pretty (add index 1);
     outcome := outcome;
     termination := terminationType;
     turns := turns;
     agentTeam := shuffledSlice (add index seed);
     opponentTeam := reverse (shuffledSlice (add (add index seed) 3));
     replayUrl :=
       "/replays/sample-replay.html#" ++ agentId ++ "-" ++ pretty (add index 1);
     timestamp := "2025-12-" ++ padStart2 (pretty (add (Z.rem index 28) 1)) |}.

(** [createMatches(agentId, winRate, termination, seed)], lines 200-237,
    with [termination.timeout] and [termination.forfeit] as two
    arguments.  The three counts are exact whenever they are valid array
    lengths; any other count is refused by [Array(n)]. *)
Definition createMatches (agentId : string) (winRate timeout forfeit seed : Z)
    : option (list sampleMatch) :=
  let timeoutCount := roundDiv (matchCount * timeout) 100 in
  let forfeitCount := roundDiv (matchCount * forfeit) 100 in
  let normalCount := Z.max 0 (matchCount - timeoutCount - forfeitCount) in
  timeouts ← filled timeoutCount "timeout";
  forfeits ← filled forfeitCount "forfeit";
  normals ← filled normalCount "normal";
  let terminationBuckets := (timeouts ++ forfeits ++ normals)%list in
  Some (matchAt agentId winRate seed terminationBuckets <$> seqZ 0 matchCount).

(** How many matches of a table have a given termination, a given
    outcome. *)
Definition countTermination (kind : string) (ms : list sampleMatch) : nat :=
  length (filter (fun m => termination m = Some kind) ms).

Definition countOutcome (result : string) (ms : list sampleMatch) : nat :=
  length (filter (fun m => outcome m = result) ms).

End Pokebench.

(** The [terminationBuckets] of [createMatches] for given counts. *)
Definition bucketsOf (timeoutCount forfeitCount : Z) : list string :=
  (repeat "timeout" (Z.to_nat timeoutCount)
   ++ repeat "forfeit" (Z.to_nat forfeitCount)
   ++ repeat "normal"
        (Z.to_nat (Z.max 0 (Pokebench.matchCount - timeoutCount - forfeitCount))))%list.

(** ** More inputs for the sample calculator *)
Module MoreSamples.
Import Sample.

(** A Garchomp description with its own nature and EVs. *)
Definition investedGarchomp : value :=
  obj [("name", VStr "Garchomp"); ("nature", VStr "Adamant");
       ("evs", obj [("spe", VNum 0)]); ("teraType", VStr "Steel")].

(** A speed request without its first side. *)
Definition oneSided : value :=
  obj [("type", VStr "speed"); ("pokemon2", garchomp)].

(** Stats requests for a description, in either mode. *)
Definition statsRequest (data : value) (maxSpeed : bool) : value :=
  obj [("type", VStr "stats"); ("pokemon", data); ("maxSpeed", VBool maxSpeed)].

Definition namelessDefender : value :=
  damageRequest garchomp (obj []) earthquake.

Definition goodDamage : value :=
  damageRequest garchomp garchomp earthquake.

(** A batch of damage requests only. *)
Definition damageBatch : value := batch [namelessDefender; goodDamage].

End MoreSamples.

(** ** Sprite identifiers of the web app

    [toSpriteId], defined alike in the replay viewer and home page
    ([src/unnamed/part_000], lines 28-56 and 413-444) and in the agent
    page ([apps/web/src/routes/agents/$agentId.tsx], lines 38-69).  Text
    is ASCII: [toLowerCase] maps A-Z to a-z and leaves the rest. *)
Module Sprites.

Definition FORM_SUFFIXES : list string :=
  [ "wellspring"; "hearthflame"; "cornerstone"; "teal";
    "therian"; "incarnate";
    "hisui"; "alola"; "galar"; "paldea";
    "origin"; "altered";
    "primal";
    "mega"; "megax"; "megay";
    "gmax";
    "crowned";
    "rapidstrike"; "singlestrike";
    "dusk"; "midnight";
    "lowkey"; "amped";
    "bloodmoon" ].

Definition between (lo hi : nat) (c : ascii) : bool :=
  (lo <=? nat_of_ascii c)%nat && (nat_of_ascii c <=? hi)%nat.

(** [[a-z]] and [[a-z0-9]] *)
Definition isLower (c : ascii) : bool := between 97 122 c.
Definition isAlnum (c : ascii) : bool := isLower c || between 48 57 c.

Definition lowerChar (c : ascii) : ascii :=
  if between 65 90 c then ascii_of_nat (nat_of_ascii c + 32) else c.

(** [s.toLowerCase()] *)
Definition toLowerCase (s : list ascii) : list ascii := map lowerChar s.

(** [s.lastIndexOf(c)]: -1 when [c] does not occur. *)
Fixpoint lastIndexOf (c : ascii) (s : list ascii) : Z :=
  match s with
  | [] => -1
  | x :: rest =>
      let later := lastIndexOf c rest in
      if 0 <=? later then later + 1
      else if Ascii.eqb x c then 0 else -1
  end.

(** [toSpriteId(name)] *)
Definition toSpriteId (name : string) : string :=
  let lower := toLowerCase (list_ascii_of_string name) in
  let hyphenIndex := lastIndexOf "-" lower in
  let plain := string_of_list_ascii (List.filter isAlnum lower) in
  if 0 <? hyphenIndex then
    let suffix :=
      List.filter isLower
        (Pokebench.slice lower (hyphenIndex + 1) (Z.of_nat (length lower))) in
    if existsb (String.eqb (string_of_list_ascii suffix)) FORM_SUFFIXES then
      let base := List.filter isAlnum (Pokebench.slice lower 0 hyphenIndex) in
      string_of_list_ascii (base ++ "-"%char :: suffix)
    else plain
  else plain.

(** Text within ASCII. *)
Definition asciiOnly (s : string) : Prop :=
  Forall (fun c => (nat_of_ascii c < 128)%nat) (list_ascii_of_string s).

End Sprites.

(** * Properties *)

(** ** Property access and the error monad *)


Lemma bind_inr {A B} (c : exc A) (k : A -> exc B) (b : B) :
  bind c k = inr b -> exists a, c = inr a /\ k a = inr b.
Proof. destruct c as [e|a]; simpl; [discriminate | eauto]. Qed.

Lemma call_inr {A} (c : oracle_outcome A) (a : A) :
  call c = inr a -> c = inr a.
Proof. destruct c; simpl; congruence. Qed.

Lemma getProp_truthy (v : value) (k : string) :
  truthy v = true -> getProp v k = inr (getOpt v k).
Proof. destruct v; simpl; intros; try discriminate; reflexivity. Qed.

Lemma getProp_inr (v x : value) (k : string) :
  getProp v k = inr x -> x = getOpt v k.
Proof. destruct v; simpl; unfold throw, ret; congruence. Qed.

Lemma getProp_obj (m : gmap string value) (k : string) :
  getProp (VObj m) k = inr (getOpt (VObj m) k).
Proof. reflexivity. Qed.

Lemma getOpt_defined_obj (v x : value) (k : string) :
  getOpt v k = x -> x <> VUndefined -> exists m, v = VObj m.
Proof. destruct v; simpl; intros; try congruence; eauto. Qed.

Lemma truthy_getOpt_obj (v : value) (k : string) :
  truthy (getOpt v k) = true -> exists m, v = VObj m.
Proof. destruct v; simpl; try discriminate; eauto. Qed.

Lemma missing_eq (data : value) (k : string) :
  missing data k = inr (negb (truthy data) || negb (truthy (getOpt data k))).
Proof.
  unfold missing. destruct (truthy data) eqn:E; [|reflexivity].
  now rewrite (getProp_truthy _ _ E).
Qed.

Lemma lacksName_false (data : value) :
  lacksName data = false ->
  truthy data = true /\ truthy (getOpt data "name") = true.
Proof.
  unfold lacksName. intros H. apply orb_false_elim in H as [H1 H2].
  split; now apply negb_false_iff.
Qed.

Section Properties.
Context {Gen Pokemon Move Field Result : Type}.
Variable O : Calc.Oracle Gen Pokemon Move Field Result.

(** ** The builders, in closed form *)

Lemma buildPokemon_eq (gen : Gen) (data : value) :
  buildPokemon O gen data =
  if lacksName data then throw (ScriptError "Pokemon data missing name")
  else call (Calc.new_Pokemon O gen (getOpt data "name") (actualOptions data)).
Proof.
  unfold buildPokemon, lacksName. rewrite missing_eq. simpl.
  destruct (truthy data) eqn:E; simpl; [|reflexivity].
  destruct (truthy (getOpt data "name")); simpl; [|reflexivity].
  now rewrite !(getProp_truthy _ _ E).
Qed.

Lemma buildMaxSpeedPokemon_eq (gen : Gen) (data : value) :
  buildMaxSpeedPokemon O gen data =
  if lacksName data then throw (ScriptError "Pokemon data missing name")
  else call (Calc.new_Pokemon O gen (getOpt data "name") (maxSpeedOptions data)).
Proof.
  unfold buildMaxSpeedPokemon, lacksName. rewrite missing_eq. simpl.
  destruct (truthy data) eqn:E; simpl; [|reflexivity].
  destruct (truthy (getOpt data "name")); simpl; [|reflexivity].
  now rewrite !(getProp_truthy _ _ E).
Qed.


(** ** The loop *)

Lemma loop_from (gen : Gen) (requests : list value) (acc : list outcome) :
  fold_left (fun results request => (results ++ [attempt O gen request])%list)
            requests acc
  = (acc ++ map (attempt O gen) requests)%list.
Proof.
  revert acc. induction requests as [|r rs IH]; intros acc; simpl.
  - now rewrite app_nil_r.
  - rewrite IH, <- app_assoc. reflexivity.
Qed.

Lemma loop_map (gen : Gen) (requests : list value) :
  loop O gen requests = map (attempt O gen) requests.
Proof. unfold loop. now rewrite loop_from. Qed.

Lemma main_requests (payload : value) (requests : list value) :
  getOpt payload "requests" = VArr requests ->
  main O payload = inr {| results := map (attempt O (genOf O payload)) requests |}.
Proof.
  intros Hreq.
  destruct (getOpt_defined_obj _ _ _ Hreq) as [m ->]; [discriminate|].
  unfold main, genOf. rewrite !getProp_obj.
  cbn [bind ret]. rewrite Hreq.
  cbn [js_or truthy iterate bind ret]. now rewrite loop_map.
Qed.

(** ** One side of a speed request *)

Lemma withSpeedDefaults_name (m : gmap string value) (k : string) :
  k <> "evs" -> k <> "ivs" ->
  withSpeedDefaults (VObj m) = inr (VObj (
    <["ivs" := js_or (getOpt (VObj m) "ivs") (VObj {[ "spe" := VNum 31 ]})]> (
    <["evs" := js_or (getOpt (VObj m) "evs") (VObj {[ "spe" := VNum 252 ]})]> m)))
  /\ forall data, withSpeedDefaults (VObj m) = inr data ->
       getOpt data k = getOpt (VObj m) k.
Proof.
  intros Hevs Hivs. split; [reflexivity|].
  intros data [= <-]. cbn [getOpt ownProps].
  now rewrite !lookup_insert_ne by congruence.
Qed.

Lemma actual_side_options (m : gmap string value) (data : value) :
  withSpeedDefaults (VObj m) = inr data ->
  actualOptions data = defaultedOptions (VObj m).
Proof.
  intros [= <-]. unfold actualOptions, defaultedOptions. cbn [getOpt ownProps].
  rewrite lookup_insert_eq.
  rewrite (lookup_insert_ne _ "ivs" "evs") by discriminate.
  rewrite lookup_insert_eq.
  now rewrite !lookup_insert_ne by discriminate.
Qed.

(** The ternary of lines 278-280 and 282-284 in closed form. *)
Lemma speedSide_eq (gen : Gen) (side : value) :
  (if truthy (getOpt side "actualStats")
   then let! data := withSpeedDefaults side in buildPokemon O gen data
   else buildMaxSpeedPokemon O gen side)
  = if lacksName side then throw (ScriptError "Pokemon data missing name")
    else call (Calc.new_Pokemon O gen (getOpt side "name") (speedSideOptions side)).
Proof.
  unfold speedSideOptions.
  destruct (truthy (getOpt side "actualStats")) eqn:Hact.
  - destruct (truthy_getOpt_obj _ _ Hact) as [m ->].
    destruct (withSpeedDefaults_name m "name") as [Hd Hname]; [discriminate..|].
    rewrite Hd. cbn [bind]. rewrite buildPokemon_eq.
    rewrite (actual_side_options _ _ Hd).
    unfold lacksName. rewrite (Hname _ Hd). reflexivity.
  - apply buildMaxSpeedPokemon_eq.
Qed.

(** What a successful [compareSpeed] did. *)
Lemma compareSpeed_inr (gen : Gen) (request : value) (r : SpeedResult.t) :
  compareSpeed O gen request = inr r ->
  let side1 := getOpt request "pokemon1" in
  let side2 := getOpt request "pokemon2" in
  exists p1 p2,
    lacksName side1 = false /\ lacksName side2 = false /\
    Calc.new_Pokemon O gen (getOpt side1 "name") (speedSideOptions side1) = inr p1 /\
    Calc.new_Pokemon O gen (getOpt side2 "name") (speedSideOptions side2) = inr p2 /\
    SpeedSummary.effectiveSpe (SpeedResult.pokemon1 r) = StatsTable.spe (Calc.stats O p1) /\
    SpeedSummary.effectiveSpe (SpeedResult.pokemon2 r) = StatsTable.spe (Calc.stats O p2) /\
    SpeedSummary.rawSpe (SpeedResult.pokemon1 r) = StatsTable.spe (Calc.rawStats O p1) /\
    SpeedSummary.rawSpe (SpeedResult.pokemon2 r) = StatsTable.spe (Calc.rawStats O p2) /\
    SpeedResult.verdict r =
      speedVerdict (StatsTable.spe (Calc.stats O p1)) (StatsTable.spe (Calc.stats O p2)).
Proof.
  intros H side1 side2. unfold compareSpeed in H.
  apply bind_inr in H as (s1 & Hs1 & H). apply getProp_inr in Hs1. subst s1.
  apply bind_inr in H as (a1 & Ha1 & H). apply getProp_inr in Ha1. subst a1.
  apply bind_inr in H as (p1 & Hp1 & H). rewrite speedSide_eq in Hp1.
  apply bind_inr in H as (s2 & Hs2 & H). apply getProp_inr in Hs2. subst s2.
  apply bind_inr in H as (a2 & Ha2 & H). apply getProp_inr in Ha2. subst a2.
  apply bind_inr in H as (p2 & Hp2 & H). rewrite speedSide_eq in Hp2.
  apply bind_inr in H as (b1 & _ & H).
  apply bind_inr in H as (b2 & _ & H).
  fold side1 in Hp1. fold side2 in Hp2.
  destruct (lacksName side1); [discriminate|].
  destruct (lacksName side2); [discriminate|].
  apply call_inr in Hp1, Hp2.
  exists p1, p2. injection H as <-. cbn. auto 10.
Qed.

Lemma compareSpeed_built (gen : Gen) (request : value) (p1 p2 : Pokemon) :
  let side1 := getOpt request "pokemon1" in
  let side2 := getOpt request "pokemon2" in
  lacksName side1 = false -> lacksName side2 = false ->
  Calc.new_Pokemon O gen (getOpt side1 "name") (speedSideOptions side1) = inr p1 ->
  Calc.new_Pokemon O gen (getOpt side2 "name") (speedSideOptions side2) = inr p2 ->
  exists r, compareSpeed O gen request = inr r.
Proof.
  intros side1 side2 H1 H2 Hp1 Hp2.
  destruct (lacksName_false _ H1) as [Ht1 _].
  destruct (lacksName_false _ H2) as [Ht2 _].
  destruct (truthy_getOpt_obj _ _ Ht1) as [m ->].
  unfold compareSpeed. rewrite !getProp_obj. cbn [bind].
  fold side1 side2. rewrite !(getProp_truthy side1), !(getProp_truthy side2) by assumption.
  cbn [bind]. rewrite !speedSide_eq, H1, H2, Hp1, Hp2. cbn. eauto.
Qed.

(** ** A request that names no combatant fails *)










(** ** Counting outcomes *)



Lemma map_lookup {A B} (f : A -> B) (l : list A) (i : nat) :
  map f l !! i = f <$> l !! i.
Proof.
  revert i. induction l as [|a l IH]; intros [|i]; simpl; try reflexivity.
  apply IH.
Qed.


(** C1 (order preservation).  For a payload whose [requests] is an array
    of N requests, the script writes a results list of exactly N
    elements, and for every index i the i-th result is what the
    try/catch of the loop body yields for the i-th request: nothing is
    dropped, reordered or merged. *)
Theorem batch_order_preserved (payload : value) (requests : list value) :
  getOpt payload "requests" = VArr requests ->
  exists out,
    main O payload = inr out /\
    length (results out) = length requests /\
    (forall (i : nat) (request : value),
       requests !! i = Some request ->
       results out !! i = Some (attempt O (genOf O payload) request)) /\
    (forall (i : nat) (r : outcome),
       results out !! i = Some r ->
       exists request, requests !! i = Some request /\
                       r = attempt O (genOf O payload) request).
Proof.
  intros Hreq. eexists. split; [exact (main_requests _ _ Hreq)|]. cbn [results].
  split; [apply List.length_map|]. split.
  - intros i request Hi. now rewrite map_lookup, Hi.
  - intros i r. rewrite map_lookup.
    destruct (requests !! i) as [request|]; simpl; [|discriminate].
    intros [= <-]. eauto.
Qed.


(** ** The verdict *)

Lemma speedVerdict_spec (spe1 spe2 : Z) :
  (speedVerdict spe1 spe2 = POKEMON1_FASTER <-> spe1 > spe2) /\
  (speedVerdict spe1 spe2 = POKEMON2_FASTER <-> spe2 > spe1) /\
  (speedVerdict spe1 spe2 = SPEED_TIE <-> spe1 = spe2).
Proof.
  unfold speedVerdict.
  destruct (Z.gtb_spec spe1 spe2) as [H1|H1];
    [|destruct (Z.gtb_spec spe2 spe1) as [H2|H2]];
    repeat split; intros; try discriminate; try reflexivity; lia.
Qed.

(** C3 (speed verdict).  The comparison is three-way with no tie-break,
    but the speeds it compares are not boost-adjusted.  [compareSpeed]
    reads [pokemon.stats.spe] of the Pokemon it has just built (line 286,
    commented "includes boosts"); with a library whose constructor
    leaves the raw stats there, as [@smogon/calc]'s does, the effective
    speed reported for a side is its raw speed, and the verdict is
    POKEMON1_FASTER exactly when side 1's raw speed is strictly greater,
    POKEMON2_FASTER exactly when side 2's is, SPEED_TIE exactly when they
    are equal: the boost stages of the request decide nothing. *)
Theorem compareSpeed_compares_raw_speeds (gen : Gen) (request : value)
    (r : SpeedResult.t) :
  stats_as_built O ->
  compareSpeed O gen request = inr r ->
  let raw1 := SpeedSummary.rawSpe (SpeedResult.pokemon1 r) in
  let raw2 := SpeedSummary.rawSpe (SpeedResult.pokemon2 r) in
  SpeedSummary.effectiveSpe (SpeedResult.pokemon1 r) = raw1 /\
  SpeedSummary.effectiveSpe (SpeedResult.pokemon2 r) = raw2 /\
  (SpeedResult.verdict r = POKEMON1_FASTER <-> raw1 > raw2) /\
  (SpeedResult.verdict r = POKEMON2_FASTER <-> raw2 > raw1) /\
  (SpeedResult.verdict r = SPEED_TIE <-> raw1 = raw2).
Proof.
  intros Hbuilt H raw1 raw2.
  destruct (compareSpeed_inr _ _ _ H)
    as (p1 & p2 & _ & _ & Hp1 & Hp2 & He1 & He2 & Hr1 & Hr2 & Hv).
  rewrite (Hbuilt _ _ _ _ Hp1) in He1, Hv.
  rewrite (Hbuilt _ _ _ _ Hp2) in He2, Hv.
  fold raw1 in Hr1. fold raw2 in Hr2.
  rewrite <- Hr1, <- Hr2 in Hv. rewrite <- Hr1 in He1. rewrite <- Hr2 in He2.
  split; [exact He1|]. split; [exact He2|].
  rewrite Hv. apply speedVerdict_spec.
Qed.

Lemma compareSpeed_side (first : bool) (gen : Gen) (request : value)
    (r : SpeedResult.t) :
  compareSpeed O gen request = inr r ->
  let side := getOpt request (sideKey first) in
  exists p,
    lacksName side = false /\
    Calc.new_Pokemon O gen (getOpt side "name") (speedSideOptions side) = inr p /\
    SpeedSummary.effectiveSpe (sideSummary first r) = StatsTable.spe (Calc.stats O p) /\
    SpeedSummary.rawSpe (sideSummary first r) = StatsTable.spe (Calc.rawStats O p).
Proof.
  intros H.
  destruct (compareSpeed_inr _ _ _ H)
    as (p1 & p2 & N1 & N2 & Hp1 & Hp2 & He1 & He2 & Hr1 & Hr2 & _).
  destruct first; cbn [sideKey sideSummary]; eauto 6.
Qed.

Lemma explicit_side_options (side side' : value) :
  truthy (getOpt side "actualStats") = false ->
  truthy (getOpt side' "actualStats") = true ->
  getOpt side' "level" = js_or (getOpt side "level") (VNum 100) ->
  getOpt side' "nature" = VStr "Jolly" ->
  getOpt side' "evs" = maxSpeedEvs ->
  getOpt side' "ivs" = maxSpeedIvs ->
  speedSideOptions side = maxSpeedOptions side /\
  speedSideOptions side' = defaultedOptions side' /\
  (boostStage side' = boostStage side ->
   sameInvestment (maxSpeedOptions side) (defaultedOptions side')) /\
  (getOpt side' "ability" = getOpt side "ability" ->
   getOpt side' "item" = getOpt side "item" ->
   getOpt side' "boosts" = getOpt side "boosts" ->
   getOpt side' "status" = getOpt side "status" ->
   getOpt side' "teraType" = VUndefined ->
   getOpt side' "moves" = VUndefined ->
   getOpt side' "curHP" = VUndefined ->
   getOpt side' "originalCurHP" = VUndefined ->
   defaultedOptions side' = maxSpeedOptions side).
Proof.
  intros Hno Hyes Hlevel Hnature Hevs Hivs. unfold speedSideOptions.
  rewrite Hno, Hyes. split; [reflexivity|]. split; [reflexivity|].
  unfold sameInvestment, defaultedOptions, maxSpeedOptions, boostStage. cbn.
  rewrite Hlevel, Hnature, Hevs, Hivs. split.
  - intros Hb. now rewrite Hb.
  - now intros -> -> -> -> -> -> -> ->.
Qed.

(** C4 (maximum-investment default), amended.  A side of a speed request
    that carries no (truthy) [actualStats] flag gets the same effective
    speed as that side of an explicit [actualStats] request of the same
    species with nature Jolly, EVs [{spe: 252, others 0}], IVs all 31,
    the same boost stage, and the level of the description where it gives
    one, 100 only where it gives none.  This holds with a library whose
    speed follows the stat formula; and for any library at all when the
    explicit side also repeats the description's ability, item, boosts
    and status and adds no tera type, moves or HP, since the library is
    then called with the very same arguments. *)
Theorem maxDefault_at_own_level (first : bool) (gen : Gen)
    (request request' : value) (r r' : SpeedResult.t) :
  let side := getOpt request (sideKey first) in
  let side' := getOpt request' (sideKey first) in
  truthy (getOpt side "actualStats") = false ->
  truthy (getOpt side' "actualStats") = true ->
  getOpt side' "name" = getOpt side "name" ->
  getOpt side' "level" = js_or (getOpt side "level") (VNum 100) ->
  getOpt side' "nature" = VStr "Jolly" ->
  getOpt side' "evs" = maxSpeedEvs ->
  getOpt side' "ivs" = maxSpeedIvs ->
  compareSpeed O gen request = inr r ->
  compareSpeed O gen request' = inr r' ->
  (speed_by_investment O ->
   boostStage side' = boostStage side ->
   SpeedSummary.effectiveSpe (sideSummary first r)
   = SpeedSummary.effectiveSpe (sideSummary first r')) /\
  (getOpt side' "ability" = getOpt side "ability" ->
   getOpt side' "item" = getOpt side "item" ->
   getOpt side' "boosts" = getOpt side "boosts" ->
   getOpt side' "status" = getOpt side "status" ->
   getOpt side' "teraType" = VUndefined ->
   getOpt side' "moves" = VUndefined ->
   getOpt side' "curHP" = VUndefined ->
   getOpt side' "originalCurHP" = VUndefined ->
   SpeedSummary.effectiveSpe (sideSummary first r)
   = SpeedSummary.effectiveSpe (sideSummary first r') /\
   SpeedSummary.rawSpe (sideSummary first r)
   = SpeedSummary.rawSpe (sideSummary first r')).
Proof.
  intros side side' Hno Hyes Hname Hlevel Hnature Hevs Hivs H H'.
  destruct (compareSpeed_side first _ _ _ H) as (p & _ & Hp & -> & ->).
  destruct (compareSpeed_side first _ _ _ H') as (p' & _ & Hp' & -> & ->).
  fold side in Hp. fold side' in Hp'.
  destruct (explicit_side_options side side' Hno Hyes Hlevel Hnature Hevs Hivs)
    as (Ho & Ho' & Hinv & Hsame).
  rewrite Ho in Hp. rewrite Ho', Hname in Hp'. split.
  - intros Hspe Hboost. exact (Hspe _ _ _ _ _ _ (Hinv Hboost) Hp Hp').
  - intros A1 A2 A3 A4 A5 A6 A7 A8.
    rewrite (Hsame A1 A2 A3 A4 A5 A6 A7 A8), Hp in Hp'.
    injection Hp' as <-. split; reflexivity.
Qed.


(** ** The builder *)


(** ** The field *)

Lemma base_lookup (k : string) :
  base !! k =
    if String.eqb k "gameType" then Some (VStr "Singles")
    else if String.eqb k "attackerSide" then Some (VObj ∅)
    else if String.eqb k "defenderSide" then Some (VObj ∅)
    else None.
Proof.
  unfold base.
  destruct (String.eqb_spec k "gameType") as [->|H1]; [reflexivity|].
  destruct (String.eqb_spec k "attackerSide") as [->|H2]; [reflexivity|].
  destruct (String.eqb_spec k "defenderSide") as [->|H3]; [reflexivity|].
  rewrite !lookup_insert_ne by congruence.
  apply lookup_singleton_ne. congruence.
Qed.


(** ** The stat query *)

(** X19.  [getStats] returns exactly when the request is an object (or
    any value but [undefined] and [null]), its description names a
    combatant and the library builds it (in maximum-speed mode when
    [maxSpeed] is truthy, from the description's own fields otherwise);
    its [hp], [atk], [def], [spa], [spd] and [spe] are then the built
    Pokemon's [rawStats], [boostedSpe] its [stats.spe], [species] and
    [level] those the library resolved. *)
Theorem getStats_returns_iff (gen : Gen) (request : value)
    (out : StatsResult.t) :
  let data := getOpt request "pokemon" in
  let options :=
    if truthy (getOpt request "maxSpeed") then maxSpeedOptions data
    else actualOptions data in
  getStats O gen request = inr out <->
  request <> VUndefined /\ request <> VNull /\
  lacksName data = false /\
  exists p : Pokemon,
    Calc.new_Pokemon O gen (getOpt data "name") options = inr p /\
    out = {| StatsResult.hp := StatsTable.hp (Calc.rawStats O p);
             StatsResult.atk := StatsTable.atk (Calc.rawStats O p);
             StatsResult.def := StatsTable.def (Calc.rawStats O p);
             StatsResult.spa := StatsTable.spa (Calc.rawStats O p);
             StatsResult.spd := StatsTable.spd (Calc.rawStats O p);
             StatsResult.spe := StatsTable.spe (Calc.rawStats O p);
             StatsResult.boostedSpe := StatsTable.spe (Calc.stats O p);
             StatsResult.species := Calc.species_name O p;
             StatsResult.level := Calc.level O p |}.
Proof.
  intros data options.
  assert (Hbuild :
    (if truthy (getOpt request "maxSpeed")
     then buildMaxSpeedPokemon O gen data else buildPokemon O gen data)
    = if lacksName data then throw (ScriptError "Pokemon data missing name")
      else call (Calc.new_Pokemon O gen (getOpt data "name") options)).
  { subst options. destruct (truthy (getOpt request "maxSpeed")).
    - apply buildMaxSpeedPokemon_eq.
    - apply buildPokemon_eq. }
  unfold getStats. split.
  - intros H.
    apply bind_inr in H as (ms & Hms & H).
    split; [intros ->; discriminate|]. split; [intros ->; discriminate|].
    apply getProp_inr in Hms. subst ms.
    apply bind_inr in H as (d & Hd & H). apply getProp_inr in Hd. subst d.
    apply bind_inr in H as (p & Hp & H). fold data in Hp. rewrite Hbuild in Hp.
    destruct (lacksName data); [discriminate|]. apply call_inr in Hp.
    split; [reflexivity|]. exists p. split; [exact Hp|]. now injection H.
  - intros (Hu & Hn & Hname & p & Hp & ->).
    assert (Hget : forall k, getProp request k = inr (getOpt request k)).
    { intros k. destruct request; try reflexivity; congruence. }
    rewrite !Hget. cbn [bind]. fold data. rewrite Hbuild, Hname, Hp. reflexivity.
Qed.

Lemma buildPokemon_built (gen : Gen) (data : value) (p : Pokemon) :
  buildPokemon O gen data = inr p ->
  exists name o, Calc.new_Pokemon O gen name o = inr p.
Proof.
  rewrite buildPokemon_eq. destruct (lacksName data); [discriminate|].
  intros Hp%call_inr. eauto.
Qed.

Lemma buildMaxSpeedPokemon_built (gen : Gen) (data : value) (p : Pokemon) :
  buildMaxSpeedPokemon O gen data = inr p ->
  exists name o, Calc.new_Pokemon O gen name o = inr p.
Proof.
  rewrite buildMaxSpeedPokemon_eq. destruct (lacksName data); [discriminate|].
  intros Hp%call_inr. eauto.
Qed.

(** C7 (stat query).  [hp] to [spe] are the raw stats, but [boostedSpe]
    is not boost-adjusted.  [getStats] reads it from [pokemon.stats.spe]
    of the Pokemon it has just built (line 199, under the comment "Also
    include boosted stats if boosts are applied"); with a library whose
    constructor leaves the raw stats there, as [@smogon/calc]'s does,
    every stats result has [boostedSpe] equal to [spe], whatever boost
    stages the request carries. *)
Theorem getStats_boostedSpe_is_raw (gen : Gen) (request : value)
    (out : StatsResult.t) :
  stats_as_built O ->
  getStats O gen request = inr out ->
  StatsResult.boostedSpe out = StatsResult.spe out.
Proof.
  intros Hbuilt H. unfold getStats in H.
  apply bind_inr in H as (ms & _ & H).
  apply bind_inr in H as (d & _ & H).
  apply bind_inr in H as (p & Hp & H).
  assert (Hnew : exists name o, Calc.new_Pokemon O gen name o = inr p).
  { destruct (truthy ms);
      [exact (buildMaxSpeedPokemon_built _ _ _ Hp) | exact (buildPokemon_built _ _ _ Hp)]. }
  destruct Hnew as (name & o & Hnew).
  injection H as <-. cbn [StatsResult.boostedSpe StatsResult.spe].
  now rewrite (Hbuilt _ _ _ _ Hnew).
Qed.

(** ** The damage resolver *)

(** X20.  When [calcOne] returns, attacker and defender were built by
    [buildPokemon], move and field by their builders, and the library
    computed a result.  The returned [range] has exactly two elements,
    the first two of that result's [range()] ([undefined] where it has
    fewer); with the library answering [range()] by the lowest and the
    highest damage roll, it is the ascending pair [[min, max]].  The
    result also carries, for attacker and for defender, [rawStats.spe]
    and [stats.spe] of the built Pokemon. *)
Theorem calcOne_range_pair (gen : Gen) (request : value)
    (out : DamageResult.t) :
  calcOne O gen request = inr out ->
  exists (attacker defender : Pokemon) (move : Move) (field : Field)
         (res : Result) (rolls : list value),
    buildPokemon O gen (getOpt request "attacker") = inr attacker /\
    buildPokemon O gen (getOpt request "defender") = inr defender /\
    buildMove O gen (getOpt request "move") = inr move /\
    buildField O (getOpt request "field") = inr field /\
    Calc.calculate O gen attacker defender move field = inr res /\
    Calc.range O res = inr rolls /\
    DamageResult.range out = [nth 0 rolls VUndefined; nth 1 rolls VUndefined] /\
    length (DamageResult.range out) = 2%nat /\
    (range_ascending O ->
       exists lo hi : Z,
         DamageResult.range out = [VNum lo; VNum hi] /\ lo <= hi) /\
    DamageResult.attacker_stats out =
      {| SpeedStats.spe := StatsTable.spe (Calc.rawStats O attacker);
         SpeedStats.boostedSpe := StatsTable.spe (Calc.stats O attacker) |} /\
    DamageResult.defender_stats out =
      {| SpeedStats.spe := StatsTable.spe (Calc.rawStats O defender);
         SpeedStats.boostedSpe := StatsTable.spe (Calc.stats O defender) |}.
Proof.
  intros H. unfold calcOne in H.
  apply bind_inr in H as (ad & ->%getProp_inr & H).
  apply bind_inr in H as (attacker & Ha & H).
  apply bind_inr in H as (dd & ->%getProp_inr & H).
  apply bind_inr in H as (defender & Hd & H).
  apply bind_inr in H as (md & ->%getProp_inr & H).
  apply bind_inr in H as (move & Hm & H).
  apply bind_inr in H as (fd & ->%getProp_inr & H).
  apply bind_inr in H as (field & Hf & H).
  apply bind_inr in H as (res & Hres%call_inr & H).
  apply bind_inr in H as (rolls & Hrolls%call_inr & H).
  apply bind_inr in H as (ko & _ & H).
  apply bind_inr in H as (desc & _ & H).
  apply bind_inr in H as (full & _ & H).
  injection H as <-. cbn.
  exists attacker, defender, move, field, res, rolls.
  repeat (split; [assumption || reflexivity|]).
  split; [|split; reflexivity].
  intros Hasc. destruct (Hasc _ _ Hrolls) as (lo & hi & -> & Hle).
  exists lo, hi. split; [reflexivity | exact Hle].
Qed.

(** C8 (damage result).  The result is augmented with both combatants'
    speeds, but the second speed of each is not boost-adjusted.
    [calcOne] reads [boostedSpe] from [stats.spe] of the Pokemon it built
    (lines 264 and 268); [calculate] works on copies, so these are as
    the constructor left them.  With a library whose constructor leaves
    the raw stats there, as [@smogon/calc]'s does, [boostedSpe] equals
    [spe] for attacker and defender in every damage result, whatever
    boost stages the request carries. *)
Theorem calcOne_boostedSpe_is_raw (gen : Gen) (request : value)
    (out : DamageResult.t) :
  stats_as_built O ->
  calcOne O gen request = inr out ->
  SpeedStats.boostedSpe (DamageResult.attacker_stats out)
  = SpeedStats.spe (DamageResult.attacker_stats out) /\
  SpeedStats.boostedSpe (DamageResult.defender_stats out)
  = SpeedStats.spe (DamageResult.defender_stats out).
Proof.
  intros Hbuilt H. unfold calcOne in H.
  apply bind_inr in H as (ad & _ & H).
  apply bind_inr in H as (attacker & Ha & H).
  apply bind_inr in H as (dd & _ & H).
  apply bind_inr in H as (defender & Hd & H).
  apply bind_inr in H as (md & _ & H).
  apply bind_inr in H as (move & _ & H).
  apply bind_inr in H as (fd & _ & H).
  apply bind_inr in H as (field & _ & H).
  apply bind_inr in H as (res & _ & H).
  apply bind_inr in H as (rolls & _ & H).
  apply bind_inr in H as (ko & _ & H).
  apply bind_inr in H as (desc & _ & H).
  apply bind_inr in H as (full & _ & H).
  destruct (buildPokemon_built _ _ _ Ha) as (na & oa & Hna).
  destruct (buildPokemon_built _ _ _ Hd) as (nd & od & Hnd).
  injection H as <-.
  cbn [DamageResult.attacker_stats DamageResult.defender_stats
       SpeedStats.boostedSpe SpeedStats.spe].
  now rewrite (Hbuilt _ _ _ _ Hna), (Hbuilt _ _ _ _ Hnd).
Qed.

End Properties.

(** ** Binding equal computations *)

Lemma bind_congr {A B} (c c' : exc A) (k k' : A -> exc B) :
  c = c' -> (forall a, k a = k' a) -> bind c k = bind c' k'.
Proof. intros <- Hk. destruct c; simpl; [reflexivity | apply Hk]. Qed.

(** * The script on the sample calculator *)

Module Examples.
Import Sample.

Lemma sample_speed_by_investment : speed_by_investment oracle.
Proof.
  intros gen name o o' p p' (Hl & Hn & He & Hi & Hb) Hp Hp'.
  cbn [Calc.new_Pokemon oracle] in Hp, Hp'. unfold new_Pokemon in Hp, Hp'.
  destruct name; try discriminate.
  destruct (baseStats s) as [b|]; [|discriminate].
  injection Hp as <-. injection Hp' as <-.
  cbn [Calc.stats oracle final build StatsTable.spe].
  unfold calcStat, core. now rewrite Hl, Hn, He, Hi, Hb.
Qed.

Lemma sample_range_ascending : range_ascending oracle.
Proof.
  intros [lo hi] rolls [= <-]. eexists _, _. split; [reflexivity|].
  cbn [fst snd]. lia.
Qed.

Lemma sample_stats_as_built : stats_as_built asBuilt.
Proof. intros gen name o p _. reflexivity. Qed.

(** The scenario of spec 8: Garchomp against Ninetales-Alola at +2, both
    of unknown investment.  With [stats] as built, Ninetales-Alola is
    reported at its raw 348, not at 696. *)
Example scenario_ninetales_outspeeds :
  (let! r := compareSpeed asBuilt 9 (speedRequest garchomp ninetales) in
   ret (SpeedSummary.effectiveSpe (SpeedResult.pokemon1 r),
        SpeedSummary.effectiveSpe (SpeedResult.pokemon2 r),
        SpeedSummary.rawSpe (SpeedResult.pokemon2 r),
        SpeedSummary.boosts (SpeedResult.pokemon2 r),
        SpeedResult.verdict r))
  = inr (333, 348, 348, VNum 2, POKEMON2_FASTER).
Proof. vm_compute. reflexivity. Qed.

Example empty_batch : main oracle (VObj ∅) = inr {| results := [] |}.
Proof. reflexivity. Qed.

Example null_payload_aborts : fails (main oracle VNull).
Proof. eexists. reflexivity. Qed.

Example empty_name_rejected :
  buildPokemon oracle 9 (obj [("name", VStr ""); ("level", VNum 50)])
  = inl (ScriptError "Pokemon data missing name").
Proof. vm_compute. reflexivity. Qed.

Example unknown_species_is_the_library's :
  buildPokemon oracle 9 (obj [("name", VStr "Missingno")])
  = inl (FromOracle (OracleError "unknown species Missingno")).
Proof. vm_compute. reflexivity. Qed.

(** Attack at +2 and speed at +1: the stat query reports both raw. *)
Example no_stat_is_boosted :
  (let! out := getStats asBuilt 9 boostedStats in
   ret (StatsResult.atk out, StatsResult.spe out, StatsResult.boostedSpe out))
  = inr (296, 240, 240).
Proof. vm_compute. reflexivity. Qed.

Example side_maps_are_merged :
  buildField oracle
    (obj [("weather", VStr "Sun");
          ("attackerSide", obj [("isReflect", VBool true)])])
  = inr (obj [("gameType", VStr "Singles"); ("weather", VStr "Sun");
              ("attackerSide", obj [("isReflect", VBool true)]);
              ("defenderSide", VObj ∅)]).
Proof. vm_compute. reflexivity. Qed.

Lemma batch_order_preserved_witness :
  getOpt payload0 "requests" = VArr requests0 /\
  exists out,
    main oracle payload0 = inr out /\
    length (results out) = 3%nat /\
    map is_ok (results out) = [true; false; true].
Proof.
  split; [reflexivity|].
  destruct (batch_order_preserved oracle payload0 requests0 eq_refl)
    as (out & Hmain & Hlen & Hat & _).
  exists out. split; [exact Hmain|]. split; [exact Hlen|].
  pose proof (Hat 0%nat _ eq_refl) as H0.
  pose proof (Hat 1%nat _ eq_refl) as H1.
  pose proof (Hat 2%nat _ eq_refl) as H2.
  destruct (results out) as [|r0 [|r1 [|r2 [|r3 rs]]]]; try discriminate.
  injection H0 as ->. injection H1 as ->. injection H2 as ->.
  vm_compute. reflexivity.
Defined.


(** Garchomp at +1 (499 with the boost applied) is reported at its raw
    333 and loses to Ninetales-Alola's 348. *)
Lemma compareSpeed_compares_raw_speeds_witness :
  stats_as_built asBuilt /\
  exists r,
    compareSpeed asBuilt 9 boostedFirst = inr r /\
    SpeedSummary.boosts (SpeedResult.pokemon1 r) = VNum 1 /\
    SpeedSummary.rawSpe (SpeedResult.pokemon1 r) = 333 /\
    SpeedSummary.effectiveSpe (SpeedResult.pokemon1 r) = 333 /\
    SpeedSummary.effectiveSpe (SpeedResult.pokemon2 r) = 348 /\
    SpeedResult.verdict r = POKEMON2_FASTER /\
    speedVerdict (boosted 333 1) 348 = POKEMON1_FASTER.
Proof.
  split; [exact sample_stats_as_built|].
  destruct (compareSpeed asBuilt 9 boostedFirst) as [e|r] eqn:E;
    [vm_compute in E; discriminate|].
  exists r. split; [reflexivity|].
  destruct (compareSpeed_compares_raw_speeds asBuilt 9 boostedFirst r
              sample_stats_as_built E)
    as (He1 & He2 & _ & Hv2 & _).
  assert (Hraw : SpeedSummary.boosts (SpeedResult.pokemon1 r) = VNum 1 /\
                 SpeedSummary.rawSpe (SpeedResult.pokemon1 r) = 333 /\
                 SpeedSummary.rawSpe (SpeedResult.pokemon2 r) = 348).
  { vm_compute in E. injection E as <-. repeat split. }
  destruct Hraw as (Hb & Hr1 & Hr2).
  split; [exact Hb|]. split; [exact Hr1|].
  split; [rewrite He1; exact Hr1|]. split; [rewrite He2; exact Hr2|].
  split; [apply Hv2; rewrite Hr1, Hr2; lia | reflexivity].
Defined.

(** Garchomp at +1 speed (360 with the boost applied): [boostedSpe] is
    the raw 240. *)
Lemma getStats_boostedSpe_is_raw_witness :
  stats_as_built asBuilt /\
  exists out,
    getStats asBuilt 9 boostedStats = inr out /\
    StatsResult.spe out = 240 /\
    StatsResult.boostedSpe out = 240 /\
    boosted 240 1 = 360.
Proof.
  split; [exact sample_stats_as_built|].
  destruct (getStats asBuilt 9 boostedStats) as [e|out] eqn:E;
    [vm_compute in E; discriminate|].
  exists out. split; [reflexivity|].
  pose proof (getStats_boostedSpe_is_raw asBuilt 9 boostedStats out
                sample_stats_as_built E) as Hsame.
  assert (Hspe : StatsResult.spe out = 240).
  { vm_compute in E. injection E as <-. reflexivity. }
  split; [exact Hspe|]. split; [rewrite Hsame; exact Hspe | reflexivity].
Defined.

Lemma calcOne_boostedSpe_is_raw_witness :
  stats_as_built asBuilt /\
  exists out,
    calcOne asBuilt 9 boostedAttacker = inr out /\
    SpeedStats.spe (DamageResult.attacker_stats out) = 240 /\
    SpeedStats.boostedSpe (DamageResult.attacker_stats out) = 240 /\
    boosted 240 1 = 360.
Proof.
  split; [exact sample_stats_as_built|].
  destruct (calcOne asBuilt 9 boostedAttacker) as [e|out] eqn:E;
    [vm_compute in E; discriminate|].
  exists out. split; [reflexivity|].
  destruct (calcOne_boostedSpe_is_raw asBuilt 9 boostedAttacker out
              sample_stats_as_built E) as [Hsame _].
  assert (Hspe : SpeedStats.spe (DamageResult.attacker_stats out) = 240).
  { vm_compute in E. injection E as <-. reflexivity. }
  split; [exact Hspe|]. split; [rewrite Hsame; exact Hspe | reflexivity].
Defined.

Lemma maxDefault_at_own_level_witness :
  exists r r',
    compareSpeed oracle 9 unknown50 = inr r /\
    compareSpeed oracle 9 (explicitAt 50) = inr r' /\
    SpeedSummary.effectiveSpe (SpeedResult.pokemon1 r) = 169 /\
    SpeedSummary.effectiveSpe (SpeedResult.pokemon1 r')
    = SpeedSummary.effectiveSpe (SpeedResult.pokemon1 r).
Proof.
  destruct (compareSpeed oracle 9 unknown50) as [e|r] eqn:E;
    [vm_compute in E; discriminate|].
  destruct (compareSpeed oracle 9 (explicitAt 50)) as [e|r'] eqn:E';
    [vm_compute in E'; discriminate|].
  exists r, r'. split; [reflexivity|]. split; [reflexivity|].
  destruct (maxDefault_at_own_level oracle true 9 unknown50 (explicitAt 50) r r'
              eq_refl eq_refl eq_refl eq_refl eq_refl eq_refl eq_refl E E')
    as [Hformula _].
  split.
  - vm_compute in E. injection E as <-. reflexivity.
  - symmetry. exact (Hformula sample_speed_by_investment eq_refl).
Defined.

(** C4 as worded fails: at level 100 the explicit request gives speed
    333, the level-50 description of unknown investment 169. *)
Lemma maxDefault_at_level100_counterexample :
  speed_by_investment oracle /\ ~ maxDefault_at_level100 oracle.
Proof.
  split; [exact sample_speed_by_investment|]. intros H.
  destruct (compareSpeed oracle 9 unknown50) as [e|r] eqn:E;
    [vm_compute in E; discriminate|].
  destruct (compareSpeed oracle 9 (explicitAt 100)) as [e|r'] eqn:E';
    [vm_compute in E'; discriminate|].
  specialize (H true 9 unknown50 (explicitAt 100) r r').
  cbv zeta in H.
  specialize (H eq_refl eq_refl eq_refl eq_refl eq_refl eq_refl eq_refl
                eq_refl E E').
  vm_compute in E, E'. injection E as <-. injection E' as <-.
  vm_compute in H. discriminate.
Qed.


Lemma calcOne_range_pair_witness :
  exists out,
    calcOne oracle 9 (damageRequest garchomp garchomp earthquake) = inr out /\
    (exists lo hi, DamageResult.range out = [VNum lo; VNum hi] /\ lo <= hi) /\
    DamageResult.attacker_stats out
    = {| SpeedStats.spe := 240; SpeedStats.boostedSpe := 240 |}.
Proof.
  destruct (calcOne oracle 9 (damageRequest garchomp garchomp earthquake))
    as [e|out] eqn:E; [vm_compute in E; discriminate|].
  exists out. split; [reflexivity|].
  destruct (calcOne_range_pair oracle 9 _ out E)
    as (a & d & m & f & res & rolls & Ha & _ & _ & _ & _ & _ & _ & _ & Hasc & Hsa & _).
  split; [exact (Hasc sample_range_ascending)|].
  vm_compute in E. injection E as <-. reflexivity.
Defined.

End Examples.

(** * Further properties of the script *)

Lemma getProp_nonnullish (v : value) (k : string) :
  nullish v = false -> getProp v k = inr (getOpt v k).
Proof. destruct v; simpl; intros; try discriminate; reflexivity. Qed.

Lemma truthy_nonnullish (v : value) : truthy v = true -> nullish v = false.
Proof. destruct v; simpl; intros; try discriminate; reflexivity. Qed.

Lemma getOpt_truthy_nonnullish (v : value) (k : string) :
  truthy (getOpt v k) = true -> nullish v = false.
Proof. destruct v; simpl; intros; try discriminate; reflexivity. Qed.

Lemma bind_inl_inv {A B} (c : exc A) (k : A -> exc B) (e : thrown) :
  bind c k = inl e -> c = inl e \/ exists a, c = inr a /\ k a = inl e.
Proof. destruct c as [e'|a]; simpl; [intros [= ->]; now left | eauto]. Qed.

Lemma speedVerdict_flip (a b : Z) :
  speedVerdict b a = flipVerdict (speedVerdict a b).
Proof.
  unfold speedVerdict.
  destruct (Z.gtb_spec a b), (Z.gtb_spec b a); simpl; try reflexivity; lia.
Qed.

Lemma speedVerdict_refl (a : Z) : speedVerdict a a = SPEED_TIE.
Proof. unfold speedVerdict. now rewrite Z.gtb_ltb, Z.ltb_irrefl. Qed.

Section MoreProperties.
Context {Gen Pokemon Move Field Result : Type}.
Variable O : Calc.Oracle Gen Pokemon Move Field Result.

(** ** Moves *)

Lemma buildMove_eq (gen : Gen) (data : value) :
  buildMove O gen data =
  if lacksName data then throw (ScriptError moveNameError)
  else call (Calc.new_Move O gen (getOpt data "name") (moveOptions data)).
Proof.
  unfold buildMove, lacksName. rewrite missing_eq. simpl.
  destruct (truthy data) eqn:E; simpl; [|reflexivity].
  destruct (truthy (getOpt data "name")); simpl; [|reflexivity].
  now rewrite !(getProp_truthy _ _ E).
Qed.

(** X1.  [buildMove] throws "Move data missing name" exactly when the move
    description or its [name] is falsy; otherwise it hands the name and
    the seven usage options, as they are, to the library, and any failure
    is the library's. *)
Theorem buildMove_validation (gen : Gen) (data : value) :
  (buildMove O gen data = inl (ScriptError "Move data missing name")
     <-> truthy data = false \/ truthy (getOpt data "name") = false) /\
  (truthy data = true -> truthy (getOpt data "name") = true ->
     buildMove O gen data
     = call (Calc.new_Move O gen (getOpt data "name") (moveOptions data))) /\
  (forall e, buildMove O gen data = inl e ->
     e = ScriptError "Move data missing name" \/ exists f, e = FromOracle f).
Proof.
  rewrite buildMove_eq. unfold lacksName, moveNameError.
  destruct (truthy data); cbn [negb orb];
    [destruct (truthy (getOpt data "name")); cbn [negb]|].
  - split; [|split].
    + split; [|intros [|]; discriminate].
      destruct (Calc.new_Move O gen _ _); discriminate.
    + reflexivity.
    + intros e. destruct (Calc.new_Move O gen _ _) as [f|m]; simpl;
        [intros [= <-]; right; now exists f | discriminate].
  - split; [|split].
    + split; auto.
    + discriminate.
    + intros e [= <-]. now left.
  - split; [|split].
    + split; auto.
    + discriminate.
    + intros e [= <-]. now left.
Qed.

(** ** Maximum-speed mode *)

(** X2.  In maximum-speed mode the description's own nature, EVs, IVs,
    tera type, moves and HP play no part: two descriptions that agree on
    name, ability, item, boosts and status, and on level once defaulted
    to 100, are built by the same call, so they fail or succeed alike and
    give the same Pokemon. *)
Theorem buildMaxSpeedPokemon_ignores_investment (gen : Gen) (data data' : value) :
  truthy data = truthy data' ->
  getOpt data "name" = getOpt data' "name" ->
  js_or (getOpt data "level") (VNum 100) = js_or (getOpt data' "level") (VNum 100) ->
  getOpt data "ability" = getOpt data' "ability" ->
  getOpt data "item" = getOpt data' "item" ->
  getOpt data "boosts" = getOpt data' "boosts" ->
  getOpt data "status" = getOpt data' "status" ->
  buildMaxSpeedPokemon O gen data = buildMaxSpeedPokemon O gen data'.
Proof.
  intros Ht Hn Hl Ha Hi Hb Hs. rewrite !buildMaxSpeedPokemon_eq.
  unfold lacksName, maxSpeedOptions. now rewrite Ht, Hn, Hl, Ha, Hi, Hb, Hs.
Qed.

(** ** The speed resolver *)

Lemma compareSpeed_closed (gen : Gen) (request : value) :
  let side1 := getOpt request "pokemon1" in
  let side2 := getOpt request "pokemon2" in
  lacksName side1 = false -> lacksName side2 = false ->
  compareSpeed O gen request =
  let! p1 := call (Calc.new_Pokemon O gen (getOpt side1 "name") (speedSideOptions side1)) in
  let! p2 := call (Calc.new_Pokemon O gen (getOpt side2 "name") (speedSideOptions side2)) in
  ret (speedResultOf O p1 p2 side1 side2).
Proof.
  intros side1 side2 H1 H2.
  destruct (lacksName_false _ H1) as [Ht1 _].
  destruct (lacksName_false _ H2) as [Ht2 _].
  destruct (truthy_getOpt_obj _ _ Ht1) as [m ->].
  unfold compareSpeed. rewrite !getProp_obj. cbn [bind].
  fold side1 side2.
  rewrite !(getProp_truthy side1), !(getProp_truthy side2) by assumption.
  cbn [bind]. rewrite !speedSide_eq, H1, H2.
  destruct (Calc.new_Pokemon O gen (getOpt side1 "name") _) as [f1|p1];
    [reflexivity|]. cbn [call bind].
  destruct (Calc.new_Pokemon O gen (getOpt side2 "name") _) as [f2|p2];
    reflexivity.
Qed.

Lemma compareSpeed_result (gen : Gen) (request : value) (r : SpeedResult.t) :
  let side1 := getOpt request "pokemon1" in
  let side2 := getOpt request "pokemon2" in
  compareSpeed O gen request = inr r ->
  lacksName side1 = false /\ lacksName side2 = false /\
  exists p1 p2 : Pokemon,
    Calc.new_Pokemon O gen (getOpt side1 "name") (speedSideOptions side1) = inr p1 /\
    Calc.new_Pokemon O gen (getOpt side2 "name") (speedSideOptions side2) = inr p2 /\
    r = speedResultOf O p1 p2 side1 side2.
Proof.
  intros side1 side2 H.
  destruct (compareSpeed_inr O _ _ _ H) as (p1 & p2 & N1 & N2 & Hp1 & Hp2 & _).
  fold side1 side2 in N1, N2, Hp1, Hp2.
  split; [exact N1|]. split; [exact N2|]. exists p1, p2.
  split; [exact Hp1|]. split; [exact Hp2|].
  rewrite (compareSpeed_closed gen request N1 N2) in H.
  fold side1 side2 in H. rewrite Hp1, Hp2 in H. cbn [call bind ret] in H.
  injection H as <-. reflexivity.
Qed.

(** X3.  [compareSpeed] returns exactly when both sides name a combatant
    and the library builds both; the result then holds, for each side,
    the species name, base speed, raw speed and effective speed of the
    built Pokemon and the side's [boosts.spe] (0 when it gives none), and
    the verdict of the two effective speeds. *)
Theorem compareSpeed_returns_iff (gen : Gen) (request : value)
    (r : SpeedResult.t) :
  let side1 := getOpt request "pokemon1" in
  let side2 := getOpt request "pokemon2" in
  compareSpeed O gen request = inr r <->
  lacksName side1 = false /\ lacksName side2 = false /\
  exists p1 p2 : Pokemon,
    Calc.new_Pokemon O gen (getOpt side1 "name") (speedSideOptions side1) = inr p1 /\
    Calc.new_Pokemon O gen (getOpt side2 "name") (speedSideOptions side2) = inr p2 /\
    r = speedResultOf O p1 p2 side1 side2.
Proof.
  intros side1 side2. split.
  - apply compareSpeed_result.
  - intros (N1 & N2 & p1 & p2 & Hp1 & Hp2 & ->).
    rewrite (compareSpeed_closed gen request N1 N2).
    fold side1 side2. now rewrite Hp1, Hp2.
Qed.

Lemma swapSides_sides (m : gmap string value) :
  getOpt (swapSides (VObj m)) "pokemon1" = getOpt (VObj m) "pokemon2" /\
  getOpt (swapSides (VObj m)) "pokemon2" = getOpt (VObj m) "pokemon1".
Proof.
  unfold swapSides. cbn [getOpt]. split.
  - rewrite lookup_insert_ne by discriminate. now rewrite lookup_insert_eq.
  - now rewrite lookup_insert_eq.
Qed.

(** X4.  Exchanging the two sides of a speed request mirrors the result:
    when [compareSpeed] returns for a request, it returns for the
    exchanged request the same two summaries in exchanged places, with
    POKEMON1_FASTER and POKEMON2_FASTER exchanged and SPEED_TIE kept. *)
Theorem compareSpeed_swap (gen : Gen) (request : value) (r : SpeedResult.t) :
  compareSpeed O gen request = inr r ->
  compareSpeed O gen (swapSides request) = inr (mirror r).
Proof.
  intros H.
  destruct (compareSpeed_result gen request r H)
    as (N1 & N2 & p1 & p2 & Hp1 & Hp2 & ->).
  destruct (lacksName_false _ N1) as [Ht1 _].
  destruct (truthy_getOpt_obj _ _ Ht1) as [m ->].
  destruct (swapSides_sides m) as [S1 S2].
  rewrite compareSpeed_closed; rewrite ?S1, ?S2; try assumption.
  rewrite Hp2, Hp1. cbn [call bind ret]. f_equal.
  unfold mirror, speedResultOf. cbn. f_equal. apply speedVerdict_flip.
Qed.

(** X5.  A speed request whose two sides are the same description is a
    tie whenever it returns, with equal summaries, whatever the library:
    both sides are built by the same call. *)
Theorem compareSpeed_same_sides_tie (gen : Gen) (request : value)
    (r : SpeedResult.t) :
  getOpt request "pokemon1" = getOpt request "pokemon2" ->
  compareSpeed O gen request = inr r ->
  SpeedResult.verdict r = SPEED_TIE /\
  SpeedResult.pokemon1 r = SpeedResult.pokemon2 r.
Proof.
  intros Hsame H.
  destruct (compareSpeed_result gen request r H)
    as (_ & _ & p1 & p2 & Hp1 & Hp2 & ->).
  rewrite Hsame, Hp2 in Hp1. injection Hp1 as <-.
  unfold speedResultOf. cbn. rewrite Hsame.
  split; [apply speedVerdict_refl | reflexivity].
Qed.

(** X6.  What a failing speed request reports, for a request that is
    itself an object or any value but null and undefined.  A side that
    is absent (or null) gives the runtime's TypeError on [actualStats],
    not the validation message; a side that is present without a usable
    name gives "Pokemon data missing name"; and side 1 comes first: when
    the library rejects side 1, its failure is reported whatever side 2
    is. *)
Theorem compareSpeed_first_error (gen : Gen) (request : value) :
  nullish request = false ->
  let side1 := getOpt request "pokemon1" in
  (side1 = VUndefined ->
     compareSpeed O gen request
     = inl (TypeError "Cannot read properties of undefined (reading 'actualStats')")) /\
  (side1 = VNull ->
     compareSpeed O gen request
     = inl (TypeError "Cannot read properties of null (reading 'actualStats')")) /\
  (nullish side1 = false -> lacksName side1 = true ->
     compareSpeed O gen request = inl (ScriptError "Pokemon data missing name")) /\
  (forall f : oracle_failure,
     lacksName side1 = false ->
     Calc.new_Pokemon O gen (getOpt side1 "name") (speedSideOptions side1) = inl f ->
     compareSpeed O gen request = inl (FromOracle f)).
Proof.
  intros Hreq side1. unfold compareSpeed.
  rewrite (getProp_nonnullish _ _ Hreq). cbn [bind]. fold side1.
  split; [|split; [|split]].
  - intros ->. reflexivity.
  - intros ->. reflexivity.
  - intros Hn Hname. rewrite (getProp_nonnullish _ _ Hn). cbn [bind].
    now rewrite speedSide_eq, Hname.
  - intros f Hname Hf.
    destruct (lacksName_false _ Hname) as [Ht _].
    rewrite (getProp_truthy _ _ Ht). cbn [bind].
    now rewrite speedSide_eq, Hname, Hf.
Qed.

(** ** The stat query against the other two resolvers *)

Lemma getStats_closed (gen : Gen) (request : value) :
  nullish request = false ->
  let data := getOpt request "pokemon" in
  getStats O gen request =
  let! p :=
    (if lacksName data then throw (ScriptError pokemonNameError)
     else call (Calc.new_Pokemon O gen (getOpt data "name")
                  (if truthy (getOpt request "maxSpeed") then maxSpeedOptions data
                   else actualOptions data))) in
  ret (statsOf O p).
Proof.
  intros Hreq data. unfold getStats.
  rewrite !(getProp_nonnullish _ _ Hreq). cbn [bind]. fold data.
  destruct (truthy (getOpt request "maxSpeed")).
  - now rewrite buildMaxSpeedPokemon_eq.
  - now rewrite buildPokemon_eq.
Qed.

(** X7.  The speed resolver and the stat query agree.  For a side of a
    speed request that carries no (truthy) [actualStats] flag, a stats
    request for the same description with [maxSpeed] set returns, and its
    [spe], [boostedSpe] and [species] are the raw speed, effective speed
    and name [compareSpeed] reports for that side. *)
Theorem compareSpeed_agrees_with_getStats (first : bool) (gen : Gen)
    (request statsRequest : value) (r : SpeedResult.t) :
  let side := getOpt request (sideKey first) in
  compareSpeed O gen request = inr r ->
  truthy (getOpt side "actualStats") = false ->
  getOpt statsRequest "pokemon" = side ->
  truthy (getOpt statsRequest "maxSpeed") = true ->
  exists out : StatsResult.t,
    getStats O gen statsRequest = inr out /\
    StatsResult.spe out = SpeedSummary.rawSpe (sideSummary first r) /\
    StatsResult.boostedSpe out = SpeedSummary.effectiveSpe (sideSummary first r) /\
    StatsResult.species out = SpeedSummary.name (sideSummary first r).
Proof.
  intros side H Hflag Hdata Hmax.
  destruct (compareSpeed_result gen request r H)
    as (N1 & N2 & p1 & p2 & Hp1 & Hp2 & ->).
  assert (Hside : exists p,
    lacksName side = false /\
    Calc.new_Pokemon O gen (getOpt side "name") (maxSpeedOptions side) = inr p /\
    sideSummary first (speedResultOf O p1 p2 (getOpt request "pokemon1")
                         (getOpt request "pokemon2")) = summaryOf O p side).
  { subst side. unfold speedSideOptions in Hp1, Hp2.
    destruct first; cbn [sideKey sideSummary] in *; rewrite Hflag in *; eauto. }
  destruct Hside as (p & Hname & Hp & ->).
  assert (Hreq : nullish statsRequest = false).
  { apply (getOpt_truthy_nonnullish _ "pokemon"). rewrite Hdata.
    now destruct (lacksName_false _ Hname). }
  exists (statsOf O p). rewrite (getStats_closed gen statsRequest Hreq).
  cbv zeta. rewrite Hdata, Hname, Hmax, Hp. cbn. auto.
Qed.

Lemma calcOne_closed (gen : Gen) (request : value) :
  nullish request = false ->
  calcOne O gen request =
  let! attacker := buildPokemon O gen (getOpt request "attacker") in
  let! defender := buildPokemon O gen (getOpt request "defender") in
  let! move := buildMove O gen (getOpt request "move") in
  let! field := buildField O (getOpt request "field") in
  let! result := call (Calc.calculate O gen attacker defender move field) in
  let! rolls := call (Calc.range O result) in
  let! ko := call (Calc.kochance O result) in
  let! desc := call (Calc.desc O result) in
  let! full_desc := call (Calc.fullDesc O result) in
  ret {| DamageResult.damage := Calc.damage O result;
         DamageResult.range := [nth 0 rolls VUndefined; nth 1 rolls VUndefined];
         DamageResult.desc := desc;
         DamageResult.full_desc := full_desc;
         DamageResult.ko := ko;
         DamageResult.attacker_stats :=
           {| SpeedStats.spe := StatsTable.spe (Calc.rawStats O attacker);
              SpeedStats.boostedSpe := StatsTable.spe (Calc.stats O attacker) |};
         DamageResult.defender_stats :=
           {| SpeedStats.spe := StatsTable.spe (Calc.rawStats O defender);
              SpeedStats.boostedSpe := StatsTable.spe (Calc.stats O defender) |} |}.
Proof.
  intros Hreq. unfold calcOne.
  rewrite (getProp_nonnullish _ "attacker" Hreq). cbn [bind].
  apply bind_congr; [reflexivity|]; intros attacker.
  rewrite (getProp_nonnullish _ "defender" Hreq). cbn [bind].
  apply bind_congr; [reflexivity|]; intros defender.
  rewrite (getProp_nonnullish _ "move" Hreq). cbn [bind].
  apply bind_congr; [reflexivity|]; intros move.
  rewrite (getProp_nonnullish _ "field" Hreq). cbn [bind].
  reflexivity.
Qed.

(** X8.  The damage resolver and the stat query agree.  When [calcOne]
    returns, a stats request (without [maxSpeed]) for the attacker's
    description returns too, and its [spe] and [boostedSpe] are the
    [attacker_stats] of the damage result; likewise for the defender. *)
Theorem calcOne_agrees_with_getStats (gen : Gen)
    (request attackerStats defenderStats : value) (out : DamageResult.t) :
  calcOne O gen request = inr out ->
  getOpt attackerStats "pokemon" = getOpt request "attacker" ->
  truthy (getOpt attackerStats "maxSpeed") = false ->
  getOpt defenderStats "pokemon" = getOpt request "defender" ->
  truthy (getOpt defenderStats "maxSpeed") = false ->
  exists sa sd : StatsResult.t,
    getStats O gen attackerStats = inr sa /\
    getStats O gen defenderStats = inr sd /\
    DamageResult.attacker_stats out
    = {| SpeedStats.spe := StatsResult.spe sa;
         SpeedStats.boostedSpe := StatsResult.boostedSpe sa |} /\
    DamageResult.defender_stats out
    = {| SpeedStats.spe := StatsResult.spe sd;
         SpeedStats.boostedSpe := StatsResult.boostedSpe sd |}.
Proof.
  intros H Ha Hma Hd Hmd. unfold calcOne in H.
  apply bind_inr in H as (ad & ->%getProp_inr & H).
  apply bind_inr in H as (attacker & Hatt & H).
  apply bind_inr in H as (dd & ->%getProp_inr & H).
  apply bind_inr in H as (defender & Hdef & H).
  apply bind_inr in H as (md & _ & H).
  apply bind_inr in H as (move & _ & H).
  apply bind_inr in H as (fd & _ & H).
  apply bind_inr in H as (field & _ & H).
  apply bind_inr in H as (res & _ & H).
  apply bind_inr in H as (rolls & _ & H).
  apply bind_inr in H as (ko & _ & H).
  apply bind_inr in H as (desc & _ & H).
  apply bind_inr in H as (full & _ & H).
  injection H as <-.
  rewrite buildPokemon_eq in Hatt, Hdef.
  destruct (lacksName (getOpt request "attacker")) eqn:Na; [discriminate|].
  destruct (lacksName (getOpt request "defender")) eqn:Nd; [discriminate|].
  apply call_inr in Hatt, Hdef.
  assert (Hra : nullish attackerStats = false).
  { apply (getOpt_truthy_nonnullish _ "pokemon"). rewrite Ha.
    now destruct (lacksName_false _ Na). }
  assert (Hrd : nullish defenderStats = false).
  { apply (getOpt_truthy_nonnullish _ "pokemon"). rewrite Hd.
    now destruct (lacksName_false _ Nd). }
  exists (statsOf O attacker), (statsOf O defender).
  rewrite (getStats_closed gen _ Hra), (getStats_closed gen _ Hrd). cbv zeta.
  rewrite Ha, Hd, Na, Nd, Hma, Hmd, Hatt, Hdef. cbn. auto.
Qed.

(** ** What a failing damage request reports *)

(** X9.  [calcOne] checks the attacker first, then the defender, then the
    move, for a request that is not null or undefined: a nameless
    attacker gives "Pokemon data missing name" whatever the rest; a
    library failure on the attacker is reported before the defender is
    looked at; with the attacker built, a nameless defender gives the
    same validation message; with both built, a nameless move gives
    "Move data missing name". *)
Theorem calcOne_first_error (gen : Gen) (request : value) :
  nullish request = false ->
  let attacker := getOpt request "attacker" in
  let defender := getOpt request "defender" in
  let move := getOpt request "move" in
  (lacksName attacker = true ->
     calcOne O gen request = inl (ScriptError "Pokemon data missing name")) /\
  (forall f : oracle_failure,
     buildPokemon O gen attacker = inl (FromOracle f) ->
     calcOne O gen request = inl (FromOracle f)) /\
  (forall pa : Pokemon,
     buildPokemon O gen attacker = inr pa ->
     lacksName defender = true ->
     calcOne O gen request = inl (ScriptError "Pokemon data missing name")) /\
  (forall pa pd : Pokemon,
     buildPokemon O gen attacker = inr pa ->
     buildPokemon O gen defender = inr pd ->
     lacksName move = true ->
     calcOne O gen request = inl (ScriptError "Move data missing name")).
Proof.
  intros Hreq attacker defender move. rewrite (calcOne_closed gen request Hreq).
  fold attacker defender move. split; [|split; [|split]].
  - intros Hn. now rewrite buildPokemon_eq, Hn.
  - intros f ->. reflexivity.
  - intros pa -> Hn. cbn [bind]. now rewrite buildPokemon_eq, Hn.
  - intros pa pd -> -> Hn. cbn [bind]. now rewrite buildMove_eq, Hn.
Qed.

(** ** Every way a request can fail *)

Lemma getProp_inl (v : value) (k : string) (e : thrown) :
  getProp v k = inl e ->
  exists what, (what = "undefined" \/ what = "null") /\
               e = TypeError (cannotRead what k).
Proof.
  destruct v; simpl; try discriminate; intros [= <-].
  - exists "undefined". auto.
  - exists "null". auto.
Qed.

Lemma getProp_inr_nonnullish (v x : value) (k : string) :
  getProp v k = inr x -> nullish v = false.
Proof. destruct v; simpl; try discriminate; reflexivity. Qed.

Lemma call_inl {A} (c : oracle_outcome A) (e : thrown) :
  call c = inl e -> exists f, e = FromOracle f.
Proof. destruct c as [f|a]; simpl; [intros [= <-]; eauto | discriminate]. Qed.

Lemma named_build_inl {A} (data : value) (c : oracle_outcome A) (e : thrown) :
  (if lacksName data then throw (ScriptError pokemonNameError) else call c) = inl e ->
  requestThrow e.
Proof.
  unfold requestThrow. destruct (lacksName data).
  - intros [= <-]. auto.
  - intros H%call_inl. auto.
Qed.

Lemma buildField_returns (data : value) :
  exists f, buildField O data = inr f.
Proof.
  unfold buildField. destruct (truthy data) eqn:Ht; cbn [negb].
  - rewrite !getProp_obj, !(getProp_truthy _ _ Ht). cbn [bind ret]. eauto.
  - eauto.
Qed.

Lemma getStats_inl (gen : Gen) (request : value) (e : thrown) :
  nullish request = false -> getStats O gen request = inl e -> requestThrow e.
Proof.
  intros Hreq. rewrite (getStats_closed gen request Hreq). cbv zeta.
  intros [H | (p & _ & H)]%bind_inl_inv; [|discriminate].
  exact (named_build_inl _ _ _ H).
Qed.

Lemma compareSpeed_inl (gen : Gen) (request : value) (e : thrown) :
  nullish request = false -> compareSpeed O gen request = inl e -> requestThrow e.
Proof.
  intros Hreq H. unfold compareSpeed in H.
  rewrite (getProp_nonnullish _ _ Hreq) in H. cbn [bind] in H.
  set (side1 := getOpt request "pokemon1") in *.
  apply bind_inl_inv in H as [H | (a1 & Ha1 & H)].
  { destruct (getProp_inl _ _ _ H) as (what & Hw & ->).
    right. right. left. exists what, "actualStats". auto. }
  pose proof (getProp_inr_nonnullish _ _ _ Ha1) as Hs1.
  apply getProp_inr in Ha1. subst a1.
  rewrite speedSide_eq in H.
  apply bind_inl_inv in H as [H | (p1 & _ & H)].
  { exact (named_build_inl _ _ _ H). }
  rewrite (getProp_nonnullish _ _ Hreq) in H. cbn [bind] in H.
  set (side2 := getOpt request "pokemon2") in *.
  apply bind_inl_inv in H as [H | (a2 & Ha2 & H)].
  { destruct (getProp_inl _ _ _ H) as (what & Hw & ->).
    right. right. left. exists what, "actualStats". auto. }
  pose proof (getProp_inr_nonnullish _ _ _ Ha2) as Hs2.
  apply getProp_inr in Ha2. subst a2.
  rewrite speedSide_eq in H.
  apply bind_inl_inv in H as [H | (p2 & _ & H)].
  { exact (named_build_inl _ _ _ H). }
  rewrite (getProp_nonnullish _ _ Hs1), (getProp_nonnullish _ _ Hs2) in H.
  discriminate.
Qed.

Lemma calcOne_inl (gen : Gen) (request : value) (e : thrown) :
  nullish request = false -> calcOne O gen request = inl e -> requestThrow e.
Proof.
  intros Hreq H. rewrite (calcOne_closed gen request Hreq) in H.
  apply bind_inl_inv in H as [H | (attacker & _ & H)].
  { rewrite buildPokemon_eq in H. exact (named_build_inl _ _ _ H). }
  apply bind_inl_inv in H as [H | (defender & _ & H)].
  { rewrite buildPokemon_eq in H. exact (named_build_inl _ _ _ H). }
  apply bind_inl_inv in H as [H | (move & _ & H)].
  { rewrite buildMove_eq in H. unfold requestThrow.
    destruct (lacksName _); [injection H as <-; auto|].
    apply call_inl in H. auto. }
  apply bind_inl_inv in H as [H | (field & _ & H)].
  { destruct (buildField_returns (getOpt request "field")) as [f Hf].
    congruence. }
  unfold requestThrow.
  apply bind_inl_inv in H as [H%call_inl | (res & _ & H)]; [auto|].
  apply bind_inl_inv in H as [H%call_inl | (rolls & _ & H)]; [auto|].
  apply bind_inl_inv in H as [H%call_inl | (ko & _ & H)]; [auto|].
  apply bind_inl_inv in H as [H%call_inl | (desc & _ & H)]; [auto|].
  apply bind_inl_inv in H as [H%call_inl | (full & _ & H)]; [auto|].
  discriminate.
Qed.

(** X10.  Whatever a request is, the exception its handling ends in is one
    of: the validation error "Pokemon data missing name", the validation
    error "Move data missing name", the runtime's TypeError for reading
    [type] (a null request) or [actualStats] (an absent side of a speed
    request), or a failure thrown by the library.  The script raises
    nothing else; building the field never fails. *)
Theorem dispatch_failures (gen : Gen) (request : value) (e : thrown) :
  dispatch O gen request = inl e -> requestThrow e.
Proof.
  unfold dispatch. intros H.
  apply bind_inl_inv in H as [H | (type & Htype & H)].
  { destruct (getProp_inl _ _ _ H) as (what & Hw & ->).
    right. right. left. exists what, "type". auto. }
  pose proof (getProp_inr_nonnullish _ _ _ Htype) as Hreq.
  destruct (isStr type "stats").
  { apply bind_inl_inv in H as [H | (r & _ & H)]; [|discriminate].
    exact (getStats_inl gen request e Hreq H). }
  destruct (isStr type "speed").
  { apply bind_inl_inv in H as [H | (r & _ & H)]; [|discriminate].
    exact (compareSpeed_inl gen request e Hreq H). }
  apply bind_inl_inv in H as [H | (r & _ & H)]; [|discriminate].
  exact (calcOne_inl gen request e Hreq H).
Qed.

Lemma attempt_of_string (gen : Gen) (s : string) :
  attempt O gen (VStr s) = ok_false pokemonNameError.
Proof. reflexivity. Qed.

Lemma attempt_codePoints (gen : Gen) (s : string) :
  map (attempt O gen) (codePoints s)
  = repeat (ok_false pokemonNameError) (length (codePoints s)).
Proof.
  unfold codePoints. induction (sequences s) as [|u l IH]; [reflexivity|].
  cbn [map length repeat]. now rewrite attempt_of_string, IH.
Qed.

(** X11.  What a run ends in, by payload.  A payload that is [null] (or
    undefined) aborts the run with the runtime's TypeError on [gen].
    Otherwise: a missing or falsy [requests] gives an empty results list;
    an array gives one outcome per element; a string is iterated by
    code point and gives one [{ok: false, error: "Pokemon data missing
    name"}] per code point; any other truthy [requests] (an object, a
    number, [true]) aborts the run, as it is not iterable. *)
Theorem main_outcomes (payload : value) :
  (payload = VUndefined ->
     main O payload = inl (TypeError (cannotRead "undefined" "gen"))) /\
  (payload = VNull ->
     main O payload = inl (TypeError (cannotRead "null" "gen"))) /\
  (nullish payload = false ->
     let requests := getOpt payload "requests" in
     (truthy requests = false -> main O payload = inr {| results := [] |}) /\
     (forall l : list value,
        requests = VArr l ->
        main O payload = inr {| results := map (attempt O (genOf O payload)) l |}) /\
     (forall s : string,
        requests = VStr s ->
        main O payload
        = inr {| results := repeat (ok_false "Pokemon data missing name")
                                   (length (codePoints s)) |}) /\
     (truthy requests = true ->
        (forall l, requests <> VArr l) -> (forall s, requests <> VStr s) ->
        main O payload = inl (TypeError "requests is not iterable"))).
Proof.
  split; [now intros ->|]. split; [now intros ->|].
  intros Hp requests. unfold main.
  rewrite !(getProp_nonnullish _ _ Hp). cbn [bind]. fold requests.
  split; [|split; [|split]].
  - intros Hf. unfold js_or. now rewrite Hf.
  - intros l ->. cbn [js_or truthy iterate bind ret]. now rewrite loop_map.
  - intros s ->. destruct s as [|c s]; [reflexivity|].
    cbn [js_or truthy String.eqb negb iterate bind ret].
    now rewrite loop_map, attempt_codePoints.
  - intros Ht Harr Hstr. unfold js_or. rewrite Ht.
    destruct requests; try reflexivity; try discriminate.
    + now destruct (Hstr s).
    + now destruct (Harr l).
Qed.

(** ** The field descriptor is a fixed point *)

Lemma union_base_absorbed (m : gmap string value) :
  is_Some (m !! "gameType") -> is_Some (m !! "attackerSide") ->
  is_Some (m !! "defenderSide") ->
  spread base m = m.
Proof.
  intros [g Hg] [a Ha] [d Hd]. unfold spread. apply map_eq. intros k.
  rewrite lookup_union, base_lookup.
  destruct (String.eqb_spec k "gameType") as [->|_]; [now rewrite Hg|].
  destruct (String.eqb_spec k "attackerSide") as [->|_]; [now rewrite Ha|].
  destruct (String.eqb_spec k "defenderSide") as [->|_]; [now rewrite Hd|].
  now destruct (m !! k).
Qed.

(** X12.  Normalising a field twice changes nothing: the descriptor
    [buildField] makes for any input is an object that [buildField] maps
    to itself.  So a field context can be fed back as a request's [field]
    without drifting. *)
Theorem buildField_idempotent (data : value) :
  exists m : gmap string value,
    buildField O data = inr (Calc.new_Field O (VObj m)) /\
    buildField O (VObj m) = inr (Calc.new_Field O (VObj m)).
Proof.
  assert (Hfix : forall (m0 a d : gmap string value),
    is_Some (m0 !! "gameType") ->
    let m := <["defenderSide" := VObj d]> (<["attackerSide" := VObj a]> m0) in
    buildField O (VObj m) = inr (Calc.new_Field O (VObj m))).
  { intros m0 a d Hg m. unfold buildField. cbn [truthy negb].
    rewrite !getProp_obj. cbn [bind ret]. do 2 f_equal. f_equal.
    assert (Hd : m !! "defenderSide" = Some (VObj d))
      by (subst m; now rewrite lookup_insert_eq).
    assert (Ha : m !! "attackerSide" = Some (VObj a)).
    { subst m. rewrite lookup_insert_ne by discriminate.
      now rewrite lookup_insert_eq. }
    assert (Hgm : is_Some (m !! "gameType"))
      by (subst m; now rewrite !lookup_insert_ne by discriminate).
    cbn [getOpt ownProps]. rewrite Ha, Hd. cbn [default js_or truthy ownProps].
    rewrite union_base_absorbed by (rewrite ?Ha, ?Hd; eauto).
    assert (Hbase : forall k, k = "attackerSide" \/ k = "defenderSide" ->
              default VUndefined (base !! k) = VObj ∅).
    { intros k [-> | ->]; reflexivity. }
    rewrite !Hbase by auto. cbn [ownProps]. unfold spread.
    rewrite !(right_id_L ∅ (∪)).
    rewrite (insert_id m "attackerSide") by exact Ha.
    now rewrite (insert_id m "defenderSide") by exact Hd. }
  unfold buildField at 1. destruct (truthy data) eqn:Ht; cbn [negb].
  - rewrite !getProp_obj, !(getProp_truthy _ _ Ht). cbn [bind ret].
    eexists. split; [reflexivity|]. apply Hfix.
    unfold spread. rewrite lookup_union.
    destruct (ownProps data !! "gameType"); cbn; eauto.
  - exists base. split; [reflexivity|].
    assert (Hbase : <["defenderSide" := VObj ∅]> (<["attackerSide" := VObj ∅]> base)
                    = base).
    { rewrite (insert_id base "attackerSide") by reflexivity.
      now rewrite (insert_id base "defenderSide") by reflexivity. }
    assert (Hg : is_Some (base !! "gameType")) by now eexists.
    pose proof (Hfix base ∅ ∅ Hg) as Hb. cbv zeta in Hb.
    now rewrite Hbase in Hb.
Qed.

(** ** The later script against the earlier one *)

Lemma legacy_loop_map (gen : Gen) (requests : list value) :
  Legacy.loop O gen requests = map (Legacy.attempt O gen) requests.
Proof.
  unfold Legacy.loop.
  assert (H : forall acc,
    fold_left (fun results request =>
                 (results ++ [Legacy.attempt O gen request])%list) requests acc
    = (acc ++ map (Legacy.attempt O gen) requests)%list).
  { induction requests as [|r rs IH]; intros acc; simpl.
    - now rewrite app_nil_r.
    - now rewrite IH, <- app_assoc. }
  apply H.
Qed.

Lemma bind_assoc {A B C} (c : exc A) (k : A -> exc B) (k' : B -> exc C) :
  bind (bind c k) k' = bind c (fun a => bind (k a) k').
Proof. now destruct c. Qed.

Lemma legacy_calcOne (gen : Gen) (request : value) :
  Legacy.calcOne O gen request =
  let! d := calcOne O gen request in
  ret {| Legacy.damage := DamageResult.damage d;
         Legacy.range := DamageResult.range d;
         Legacy.desc := DamageResult.desc d;
         Legacy.full_desc := DamageResult.full_desc d;
         Legacy.ko := DamageResult.ko d |}.
Proof.
  unfold calcOne, Legacy.calcOne. cbv zeta.
  repeat (rewrite bind_assoc; apply bind_congr; [reflexivity|]; intros ?).
  reflexivity.
Qed.

Lemma attempt_extends_legacy (gen : Gen) (request : value) :
  nullish request = false -> damageTyped request = true ->
  forgetSpeeds (attempt O gen request) = Some (Legacy.attempt O gen request).
Proof.
  intros Hreq Htyped. unfold damageTyped in Htyped.
  apply andb_prop in Htyped as [Hs Hp].
  apply negb_true_iff in Hs, Hp.
  unfold attempt, Legacy.attempt, dispatch.
  rewrite (getProp_nonnullish _ _ Hreq). cbn [bind]. rewrite Hs, Hp.
  rewrite legacy_calcOne.
  now destruct (calcOne O gen request).
Qed.

(** X13.  The later script extends the earlier one (second document of the
    file).  On a batch whose requests are all objects with a [type] other
    than "stats" and "speed", both scripts return, and request by request
    they report the same flag, the same error message on failure, and on
    success the same [damage], [range], [desc], [full_desc] and [ko]: the
    later one only adds the two speed-stat fields. *)
Theorem later_script_extends_earlier (payload : value) (requests : list value) :
  getOpt payload "requests" = VArr requests ->
  Forall (fun request => nullish request = false /\ damageTyped request = true)
         requests ->
  exists (out : output) (out' : Legacy.output),
    main O payload = inr out /\
    Legacy.main O payload = inr out' /\
    map forgetSpeeds (results out) = map Some (Legacy.results out').
Proof.
  intros Hreq Hall.
  exists {| results := map (attempt O (genOf O payload)) requests |},
         {| Legacy.results := map (Legacy.attempt O (genOf O payload)) requests |}.
  split; [exact (main_requests O _ _ Hreq)|]. split.
  - destruct (getOpt_defined_obj _ _ _ Hreq) as [m ->]; [discriminate|].
    unfold Legacy.main, genOf. rewrite !getProp_obj.
    cbn [bind ret]. rewrite Hreq.
    cbn [js_or truthy iterate bind ret]. now rewrite legacy_loop_map.
  - cbn [results Legacy.results]. rewrite !List.map_map. clear Hreq.
    induction Hall as [|request rest [Hn Ht] _ IH]; cbn [map]; [reflexivity|].
    f_equal; [exact (attempt_extends_legacy _ _ Hn Ht) | exact IH].
Qed.

End MoreProperties.

(** * The synthetic match tables *)

Section Counting.
Context {A B : Type}.

Lemma filter_fmap_length (f : A -> B) (P : B -> Prop)
    {HP : forall y, Decision (P y)} {HPf : forall x, Decision (P (f x))}
    (l : list A) :
  length (filter P (f <$> l)) = length (filter (fun x => P (f x)) l).
Proof.
  induction l as [|a l IH]; [reflexivity|].
  rewrite fmap_cons, !filter_cons.
  destruct (decide (P (f a))) as [Hy|Hn], (decide (P (f a))) as [Hy'|Hn'];
    simpl; tauto || lia.
Qed.

Lemma filter_length_ext (P Q : A -> Prop) `{!forall x, Decision (P x)}
    `{!forall x, Decision (Q x)} (l : list A) :
  (forall x, x ∈ l -> P x <-> Q x) ->
  length (filter P l) = length (filter Q l).
Proof.
  induction l as [|a l IH]; intros Hall; [reflexivity|].
  rewrite !filter_cons.
  assert (Ha : P a <-> Q a) by (apply Hall; left).
  assert (Hl : forall x, x ∈ l -> P x <-> Q x) by (intros x Hx; apply Hall; now right).
  destruct (decide (P a)), (decide (Q a)); simpl; rewrite ?(IH Hl); tauto || lia.
Qed.


Lemma filter_repeat_length (P : A -> Prop) `{!forall x, Decision (P x)}
    (x : A) (n : nat) :
  length (filter P (repeat x n)) = if decide (P x) then n else 0%nat.
Proof.
  induction n as [|n IH]; simpl; [now destruct (decide (P x))|].
  rewrite filter_cons. destruct (decide (P x)); simpl; lia.
Qed.
End Counting.

Lemma rem_is_mod (x d : Z) : 0 <= x -> 0 < d -> Z.rem x d = x mod d.
Proof. intros. now apply Z.rem_mod_nonneg. Qed.

(** Rounding to a double: exact on the safe integers, and never below
    zero on a sum that is not. *)
Lemma double_exact (z : Z) :
  Z.abs z <= Pokebench.MAX_SAFE_INTEGER -> Pokebench.double z = z.
Proof.
  intros H. unfold Pokebench.double.
  destruct (Z.leb_spec (Z.abs z) Pokebench.MAX_SAFE_INTEGER); [reflexivity | lia].
Qed.


Lemma add_exact (a b : Z) :
  Z.abs (a + b) <= Pokebench.MAX_SAFE_INTEGER -> Pokebench.add a b = a + b.
Proof. apply double_exact. Qed.

Lemma mul_exact (a b : Z) :
  Z.abs (a * b) <= Pokebench.MAX_SAFE_INTEGER -> Pokebench.mul a b = a * b.
Proof. apply double_exact. Qed.


(** The sums [index * k + seed] of the generator, for the hundred
    indices: exact while they stay safe integers. *)
Lemma stride_exact (k index seed : Z) :
  0 <= index < 100 -> 0 <= k <= 13 -> 0 <= seed ->
  seed + 99 * k <= Pokebench.MAX_SAFE_INTEGER ->
  Pokebench.add (Pokebench.mul index k) seed = index * k + seed.
Proof.
  intros Hi Hk Hs Hmax.
  rewrite mul_exact by (unfold Pokebench.MAX_SAFE_INTEGER; nia).
  apply add_exact. unfold Pokebench.MAX_SAFE_INTEGER in *. nia.
Qed.


(** Stepping through the residues of 100 by a stride prime to 100 visits
    each of them once. *)
Lemma stride_injective (a s i j : Z) :
  Z.gcd 100 a = 1 -> 0 <= i < 100 -> 0 <= j < 100 ->
  (i * a + s) mod 100 = (j * a + s) mod 100 -> i = j.
Proof.
  intros Hgcd Hi Hj Heq.
  assert (Hdiv : (100 | a * (i - j))).
  { exists ((i * a + s) / 100 - (j * a + s) / 100).
    pose proof (Z.div_mod (i * a + s) 100 ltac:(lia)) as E1.
    pose proof (Z.div_mod (j * a + s) 100 ltac:(lia)) as E2.
    lia. }
  apply Z.gauss in Hdiv; [|exact Hgcd].
  destruct Hdiv as [k Hk]. lia.
Qed.

Lemma stride_permutation (a s : Z) :
  Z.gcd 100 a = 1 ->
  (fun i => (i * a + s) mod 100) <$> seqZ 0 100 ≡ₚ seqZ 0 100.
Proof.
  intros Hgcd. apply submseteq_length_Permutation.
  - apply NoDup_submseteq.
    + apply NoDup_fmap_2_strong; [|apply NoDup_seqZ].
      intros i j Hi%elem_of_seqZ Hj%elem_of_seqZ.
      apply stride_injective; [assumption | lia | lia].
    + intros x (i & -> & _)%list_elem_of_fmap. apply elem_of_seqZ.
      pose proof (Z.mod_pos_bound (i * a + s) 100 ltac:(lia)). lia.
  - rewrite length_fmap. lia.
Qed.


Lemma at_index_all {A} (l : list A) :
  Pokebench.at_index l <$> seqZ 0 (Z.of_nat (length l)) = Some <$> l.
Proof.
  apply list_eq. intros i. rewrite !list_lookup_fmap.
  destruct (decide (i < length l)%nat) as [Hlt|Hge].
  - rewrite lookup_seqZ_lt by lia. cbn [fmap option_fmap option_map].
    unfold Pokebench.at_index.
    destruct (Z.ltb_spec (0 + Z.of_nat i) 0); [lia|].
    replace (Z.to_nat (0 + Z.of_nat i)) with i by lia.
    destruct (lookup_lt_is_Some_2 l i Hlt) as [x ->]. reflexivity.
  - rewrite lookup_seqZ_ge by lia. rewrite lookup_ge_None_2 by lia. reflexivity.
Qed.

Lemma roundDiv_percent (t : Z) : Pokebench.roundDiv (Pokebench.matchCount * t) 100 = t.
Proof.
  unfold Pokebench.roundDiv, Pokebench.matchCount.
  symmetry. apply (Z.div_unique _ _ _ 100); lia.
Qed.

Lemma createMatches_eq (agentId : string) (winRate timeout forfeit seed : Z) :
  0 <= timeout <= 100 -> 0 <= forfeit <= 100 ->
  Pokebench.createMatches agentId winRate timeout forfeit seed
  = Some (Pokebench.matchAt agentId winRate seed (bucketsOf timeout forfeit)
            <$> seqZ 0 100).
Proof.
  intros Ht Hf. unfold Pokebench.createMatches. rewrite !roundDiv_percent.
  unfold Pokebench.filled, Pokebench.matchCount.
  repeat match goal with
         | |- context [(?a <=? ?b)] =>
             destruct (Z.leb_spec a b); [|lia]
         end.
  reflexivity.
Qed.

Lemma bucketsOf_length (t f : Z) :
  0 <= t -> 0 <= f ->
  Z.of_nat (length (bucketsOf t f)) = t + f + Z.max 0 (100 - t - f).
Proof.
  intros. unfold bucketsOf, Pokebench.matchCount.
  rewrite !length_app, !repeat_length. lia.
Qed.


Lemma teamPool_NoDup : NoDup Pokebench.teamPool.
Proof. apply (bool_decide_unpack _). vm_compute. reflexivity. Qed.


(** X14.  For a non-negative offset, [shuffledSlice] returns six
    consecutive members of the pool, starting at [offset] modulo 18: a
    team of exactly six, all different. *)
Theorem shuffledSlice_window (offset : Z) :
  0 <= offset ->
  Pokebench.shuffledSlice offset
  = take 6 (drop (Z.to_nat (offset mod 18)) Pokebench.teamPool) /\
  length (Pokebench.shuffledSlice offset) = 6%nat /\
  NoDup (Pokebench.shuffledSlice offset).
Proof.
  intros Hoff.
  assert (Heq : Pokebench.shuffledSlice offset
                = take 6 (drop (Z.to_nat (offset mod 18)) Pokebench.teamPool)).
  { unfold Pokebench.shuffledSlice, Pokebench.slice.
    change (Z.of_nat (length Pokebench.teamPool)) with 24.
    change (24 - 6) with 18. rewrite rem_is_mod by lia.
    pose proof (Z.mod_pos_bound offset 18 ltac:(lia)) as Hb.
    destruct (Z.ltb_spec (offset mod 18) 0); [lia|].
    destruct (Z.ltb_spec (offset mod 18 + 6) 0); [lia|].
    rewrite !Z.min_l by lia. f_equal. lia. }
  rewrite Heq. split; [reflexivity|]. split.
  - pose proof (Z.mod_pos_bound offset 18 ltac:(lia)) as Hb.
    rewrite length_take, length_drop.
    change (length Pokebench.teamPool) with 24%nat. lia.
  - apply (sublist_NoDup _ Pokebench.teamPool); [exact teamPool_NoDup|].
    etransitivity; [apply sublist_take | apply sublist_drop].
Qed.



Lemma stride_count (a s : Z) (P : Z -> Prop) {HP : forall j, Decision (P j)}
    {HPa : forall i, Decision (P (Z.rem (i * a + s) 100))} :
  Z.gcd 100 a = 1 -> 0 <= a -> 0 <= s ->
  length (filter (fun i => P (Z.rem (i * a + s) 100)) (seqZ 0 100))
  = length (filter P (seqZ 0 100)).
Proof.
  intros Hgcd Ha Hs.
  rewrite <- (stride_permutation a s Hgcd) at 2.
  rewrite (filter_fmap_length (fun i => (i * a + s) mod 100) P
             (HPf := fun i => HP ((i * a + s) mod 100))).
  apply filter_length_ext.
  intros i Hi%elem_of_seqZ. now rewrite rem_is_mod by lia.
Qed.

Lemma countTermination_buckets (agentId : string) (winRate seed : Z)
    (buckets : list string) (kind : string) :
  length buckets = 100%nat -> 0 <= seed ->
  seed + 99 * 7 <= Pokebench.MAX_SAFE_INTEGER ->
  Pokebench.countTermination kind
    (Pokebench.matchAt agentId winRate seed buckets <$> seqZ 0 100)
  = length (filter (fun x => x = kind) buckets).
Proof.
  intros Hlen Hs Hmax. unfold Pokebench.countTermination.
  rewrite (filter_fmap_length (Pokebench.matchAt agentId winRate seed buckets)
             (fun m => Pokebench.termination m = Some kind)).
  unfold Pokebench.matchAt.
  cbn [Pokebench.termination]. rewrite Hlen. change (Z.of_nat 100) with 100.
  etransitivity.
  { apply (filter_length_ext _
             (fun i => Pokebench.at_index buckets (Z.rem (i * 7 + seed) 100)
                       = Some kind)).
    intros i Hi%elem_of_seqZ.
    now rewrite (stride_exact 7 i seed) by lia. }
  etransitivity.
  { apply (stride_count 7 seed
             (fun j => Pokebench.at_index buckets j = Some kind));
      reflexivity || lia. }
  etransitivity.
  { symmetry. apply (filter_fmap_length (Pokebench.at_index buckets)
                       (fun o => o = Some kind)). }
  change 100 with (Z.of_nat 100). rewrite <- Hlen, at_index_all.
  rewrite (filter_fmap_length Some (fun o => o = Some kind)).
  apply filter_length_ext.
  intros x _. split; [now intros [= ->] | now intros ->].
Qed.

(** X16.  When the timeout and forfeit percentages are non-negative and
    sum to at most 100, and the seed is small enough for the sums
    [index * 7 + seed] to stay safe integers (seed + 693 at most
    [Number.MAX_SAFE_INTEGER]), the generated table realises the
    percentages exactly: of its 100 matches, [timeout] end by timeout,
    [forfeit] by forfeit and the rest normally (the stride 7 is prime to
    100, so each bucket is drawn once).  Past that bound the sums are
    rounded and the counts can be off. *)
Theorem createMatches_termination_rates (agentId : string)
    (winRate timeout forfeit seed : Z) :
  0 <= timeout -> 0 <= forfeit -> timeout + forfeit <= 100 ->
  0 <= seed -> seed + 99 * 7 <= Pokebench.MAX_SAFE_INTEGER ->
  exists ms : list Pokebench.sampleMatch,
    Pokebench.createMatches agentId winRate timeout forfeit seed = Some ms /\
    Pokebench.countTermination "timeout" ms = Z.to_nat timeout /\
    Pokebench.countTermination "forfeit" ms = Z.to_nat forfeit /\
    Pokebench.countTermination "normal" ms = Z.to_nat (100 - timeout - forfeit).
Proof.
  intros Ht Hf Hsum Hs Hmax. eexists.
  split; [apply createMatches_eq; lia|].
  assert (Hlen : length (bucketsOf timeout forfeit) = 100%nat).
  { pose proof (bucketsOf_length timeout forfeit Ht Hf). lia. }
  rewrite !countTermination_buckets by assumption.
  unfold bucketsOf, Pokebench.matchCount.
  rewrite !filter_app, !length_app, !filter_repeat_length.
  repeat case_decide; try congruence; lia.
Qed.


(** * The further properties on the sample calculator *)

Module MoreExamples.
Import Sample MoreSamples.

(** A null request is reported differently by the two scripts: the later
    one reads [type] first, the earlier one [attacker]. *)
Example null_request_messages :
  attempt oracle 9 VNull = ok_false "Cannot read properties of null (reading 'type')" /\
  Legacy.attempt oracle 9 VNull
  = Legacy.ok_false "Cannot read properties of null (reading 'attacker')".
Proof. split; reflexivity. Qed.

(** A string for [requests] is walked by code point: the two bytes of
    e-acute count once, and so do the four of an emoji, which spread
    copies as two code units. *)
Example one_failure_per_code_point :
  let eacute := String (ascii_of_nat 195) (String (ascii_of_nat 169) "") in
  main oracle (obj [("requests", VStr ("a" ++ eacute))])
  = inr {| results := [ok_false "Pokemon data missing name";
                       ok_false "Pokemon data missing name"] |}.
Proof. vm_compute. reflexivity. Qed.

Example code_points_and_code_units :
  let emoji :=
    String (ascii_of_nat 240) (String (ascii_of_nat 159)
      (String (ascii_of_nat 152) (String (ascii_of_nat 128) ""))) in
  length (codePoints emoji) = 1%nat /\
  dom (ownProps (VStr emoji)) = ({[ "0"; "1" ]} : gset string).
Proof. split; [reflexivity|]. apply (bool_decide_unpack _). vm_compute. reflexivity. Qed.

(** Past the safe integers the sums of the generator are rounded: at the
    seed 2^53 - 1 a win rate of 50 gives 51 Wins, and the percentages 2
    and 1 give three timeouts. *)
Example sums_round_past_safe_integers :
  (ms ← Pokebench.createMatches "a" 50 0 0 Pokebench.MAX_SAFE_INTEGER;
   Some (Pokebench.countOutcome "Win" ms)) = Some 51%nat /\
  (ms ← Pokebench.createMatches "a" 50 2 1 Pokebench.MAX_SAFE_INTEGER;
   Some (Pokebench.countTermination "timeout" ms,
         Pokebench.countTermination "forfeit" ms,
         Pokebench.countTermination "normal" ms))
  = Some (3%nat, 1%nat, 96%nat).
Proof. split; vm_compute; reflexivity. Qed.

(** A negative offset can leave [shuffledSlice] empty. *)
Example shuffledSlice_negative_offset : Pokebench.shuffledSlice (-5) = [].
Proof. reflexivity. Qed.

Lemma buildMaxSpeedPokemon_ignores_investment_witness :
  buildMaxSpeedPokemon oracle 9 investedGarchomp
  = buildMaxSpeedPokemon oracle 9 garchomp /\
  exists p, buildMaxSpeedPokemon oracle 9 garchomp = inr p /\
            StatsTable.spe (final p) = 333.
Proof.
  split.
  - apply (buildMaxSpeedPokemon_ignores_investment oracle 9
             investedGarchomp garchomp); reflexivity.
  - eexists. split; vm_compute; reflexivity.
Defined.

Lemma compareSpeed_swap_witness :
  exists r,
    compareSpeed oracle 9 (speedRequest garchomp ninetales) = inr r /\
    SpeedResult.verdict r = POKEMON2_FASTER /\
    compareSpeed oracle 9 (swapSides (speedRequest garchomp ninetales))
    = inr (mirror r) /\
    SpeedResult.verdict (mirror r) = POKEMON1_FASTER.
Proof.
  destruct (compareSpeed oracle 9 (speedRequest garchomp ninetales))
    as [e|r] eqn:E; [vm_compute in E; discriminate|].
  exists r. split; [reflexivity|].
  pose proof (compareSpeed_swap oracle 9 _ r E) as Hswap.
  vm_compute in E. injection E as <-.
  split; [reflexivity|]. split; [exact Hswap | reflexivity].
Defined.

Lemma compareSpeed_same_sides_tie_witness :
  exists r,
    compareSpeed oracle 9 (speedRequest ninetales ninetales) = inr r /\
    SpeedResult.verdict r = SPEED_TIE /\
    SpeedResult.pokemon1 r = SpeedResult.pokemon2 r.
Proof.
  destruct (compareSpeed oracle 9 (speedRequest ninetales ninetales))
    as [e|r] eqn:E; [vm_compute in E; discriminate|].
  exists r. split; [reflexivity|].
  exact (compareSpeed_same_sides_tie oracle 9
           (speedRequest ninetales ninetales) r eq_refl E).
Defined.

Lemma compareSpeed_first_error_witness :
  nullish oneSided = false /\
  compareSpeed oracle 9 oneSided
  = inl (TypeError "Cannot read properties of undefined (reading 'actualStats')").
Proof.
  split; [reflexivity|].
  destruct (compareSpeed_first_error oracle 9 oneSided eq_refl) as (Hundef & _).
  exact (Hundef eq_refl).
Defined.

Lemma compareSpeed_agrees_with_getStats_witness :
  exists r out,
    compareSpeed oracle 9 (speedRequest garchomp ninetales) = inr r /\
    getStats oracle 9 (statsRequest ninetales true) = inr out /\
    StatsResult.boostedSpe out
    = SpeedSummary.effectiveSpe (SpeedResult.pokemon2 r) /\
    StatsResult.boostedSpe out = 696.
Proof.
  destruct (compareSpeed oracle 9 (speedRequest garchomp ninetales))
    as [e|r] eqn:E; [vm_compute in E; discriminate|].
  destruct (compareSpeed_agrees_with_getStats oracle false 9
              (speedRequest garchomp ninetales) (statsRequest ninetales true) r
              E eq_refl eq_refl eq_refl)
    as (out & Hout & _ & Hboosted & _).
  exists r, out. split; [reflexivity|]. split; [exact Hout|].
  split; [exact Hboosted|].
  rewrite Hboosted. vm_compute in E. injection E as <-. reflexivity.
Defined.

Lemma calcOne_agrees_with_getStats_witness :
  exists out sa sd,
    calcOne oracle 9 goodDamage = inr out /\
    getStats oracle 9 (statsRequest garchomp false) = inr sa /\
    getStats oracle 9 (statsRequest garchomp false) = inr sd /\
    SpeedStats.boostedSpe (DamageResult.attacker_stats out)
    = StatsResult.boostedSpe sa.
Proof.
  destruct (calcOne oracle 9 goodDamage) as [e|out] eqn:E;
    [vm_compute in E; discriminate|].
  destruct (calcOne_agrees_with_getStats oracle 9 goodDamage
              (statsRequest garchomp false) (statsRequest garchomp false) out
              E eq_refl eq_refl eq_refl eq_refl)
    as (sa & sd & Hsa & Hsd & Ha & _).
  exists out, sa, sd. split; [reflexivity|]. split; [exact Hsa|].
  split; [exact Hsd|]. now rewrite Ha.
Defined.

Lemma calcOne_first_error_witness :
  nullish namelessDefender = false /\
  calcOne oracle 9 namelessDefender = inl (ScriptError "Pokemon data missing name").
Proof.
  split; [reflexivity|].
  destruct (calcOne_first_error oracle 9 namelessDefender eq_refl)
    as (_ & _ & Hdefender & _).
  destruct (buildPokemon oracle 9 (getOpt namelessDefender "attacker"))
    as [e|pa] eqn:E; [vm_compute in E; discriminate|].
  exact (Hdefender pa eq_refl eq_refl).
Defined.

Lemma dispatch_failures_witness :
  dispatch oracle 9 oneSided
  = inl (TypeError (cannotRead "undefined" "actualStats")) /\
  requestThrow (TypeError (cannotRead "undefined" "actualStats")).
Proof.
  split; [reflexivity|].
  apply (dispatch_failures oracle 9 oneSided). reflexivity.
Defined.

Lemma later_script_extends_earlier_witness :
  exists out out',
    main oracle damageBatch = inr out /\
    Legacy.main oracle damageBatch = inr out' /\
    map forgetSpeeds (results out) = map Some (Legacy.results out') /\
    length (Legacy.results out') = 2%nat.
Proof.
  destruct (later_script_extends_earlier oracle damageBatch
              [namelessDefender; goodDamage] eq_refl)
    as (out & out' & Hmain & Hlegacy & Hsame).
  { repeat constructor. }
  exists out, out'. split; [exact Hmain|]. split; [exact Hlegacy|].
  split; [exact Hsame|].
  vm_compute in Hlegacy. injection Hlegacy as <-. reflexivity.
Defined.

Lemma shuffledSlice_window_witness :
  0 <= 20 /\
  Pokebench.shuffledSlice 20
  = ["Gholdengo"; "Kingambit"; "Iron Valiant"; "Walking Wake"; "Ting-Lu";
     "Garganacl"] /\
  NoDup (Pokebench.shuffledSlice 20).
Proof.
  split; [lia|].
  destruct (shuffledSlice_window 20 ltac:(lia)) as (Heq & _ & Hnodup).
  split; [rewrite Heq; reflexivity | exact Hnodup].
Defined.


Lemma createMatches_termination_rates_witness :
  exists ms,
    Pokebench.createMatches "openai-o3-mini" 64 2 1 0 = Some ms /\
    Pokebench.countTermination "timeout" ms = 2%nat /\
    Pokebench.countTermination "forfeit" ms = 1%nat /\
    Pokebench.countTermination "normal" ms = 97%nat.
Proof.
  destruct (createMatches_termination_rates "openai-o3-mini" 64 2 1 0
              ltac:(lia) ltac:(lia) ltac:(lia) ltac:(lia)
              ltac:(unfold Pokebench.MAX_SAFE_INTEGER; lia))
    as (ms & Hms & Ht & Hf & Hn).
  exists ms. split; [exact Hms|]. split; [exact Ht|]. split; [exact Hf|]. exact Hn.
Defined.


End MoreExamples.

(** * Sprite identifiers *)

Lemma filter_Forall_true {A} (f : A -> bool) (l : list A) :
  Forall (fun x => f x = true) (List.filter f l).
Proof. apply Forall_forall. intros x Hx%list_elem_of_In%filter_In. tauto. Qed.

Lemma isLower_isAlnum (c : ascii) :
  Sprites.isLower c = true -> Sprites.isAlnum c = true.
Proof. unfold Sprites.isAlnum. now intros ->. Qed.

(** X18.  For an ASCII name, the sprite id holds nothing but lower-case
    letters, digits and hyphens, and it is either made of letters and
    digits only, or of the form [<base>-<suffix>] with a base of letters
    and digits and a suffix that is one of the listed form suffixes.
    "Landorus-Therian" gives "landorus-therian"; "Ting-Lu" gives
    "tinglu". *)
Theorem toSpriteId_shape (name : string) :
  Sprites.asciiOnly name ->
  let id := list_ascii_of_string (Sprites.toSpriteId name) in
  Forall (fun c => Sprites.isAlnum c = true \/ c = "-"%char) id /\
  (Forall (fun c => Sprites.isAlnum c = true) id \/
   exists base suffix : list ascii,
     id = (base ++ "-"%char :: suffix)%list /\
     string_of_list_ascii suffix ∈ Sprites.FORM_SUFFIXES /\
     Forall (fun c => Sprites.isAlnum c = true) base /\
     Forall (fun c => Sprites.isLower c = true) suffix).
Proof.
  intros _ id. subst id. unfold Sprites.toSpriteId.
  set (lower := Sprites.toLowerCase (list_ascii_of_string name)).
  assert (Hplain :
    let id := list_ascii_of_string
                (string_of_list_ascii (List.filter Sprites.isAlnum lower)) in
    Forall (fun c => Sprites.isAlnum c = true \/ c = "-"%char) id /\
    (Forall (fun c => Sprites.isAlnum c = true) id \/
     exists base suffix : list ascii,
       id = (base ++ "-"%char :: suffix)%list /\
       string_of_list_ascii suffix ∈ Sprites.FORM_SUFFIXES /\
       Forall (fun c => Sprites.isAlnum c = true) base /\
       Forall (fun c => Sprites.isLower c = true) suffix)).
  { cbv zeta. rewrite list_ascii_of_string_of_list_ascii.
    pose proof (filter_Forall_true Sprites.isAlnum lower) as Hall.
    split; [|now left]. eapply Forall_impl; [exact Hall|]. auto. }
  destruct (0 <? Sprites.lastIndexOf "-" lower); [|exact Hplain].
  set (suffix := List.filter Sprites.isLower _).
  destruct (existsb _ Sprites.FORM_SUFFIXES) eqn:Hform; [|exact Hplain].
  set (base := List.filter Sprites.isAlnum _).
  rewrite list_ascii_of_string_of_list_ascii.
  pose proof (filter_Forall_true Sprites.isAlnum
                (Pokebench.slice lower 0 (Sprites.lastIndexOf "-" lower))) as Hbase.
  pose proof (filter_Forall_true Sprites.isLower
                (Pokebench.slice lower (Sprites.lastIndexOf "-" lower + 1)
                   (Z.of_nat (length lower)))) as Hsuffix.
  fold base in Hbase. fold suffix in Hsuffix. split.
  - apply Forall_app. split; [eapply Forall_impl; [exact Hbase|]; auto|].
    constructor; [now right|].
    eapply Forall_impl; [exact Hsuffix|]. intros c Hc. left.
    now apply isLower_isAlnum.
  - right. exists base, suffix. split; [reflexivity|]. split; [|now split].
    apply existsb_exists in Hform as (x & Hx & ->%String.eqb_eq).
    now apply list_elem_of_In.
Qed.

Module SpriteExamples.

Lemma toSpriteId_shape_witness :
  Sprites.asciiOnly "Landorus-Therian" /\
  Sprites.toSpriteId "Landorus-Therian" = "landorus-therian" /\
  Sprites.toSpriteId "Ting-Lu" = "tinglu" /\
  Sprites.toSpriteId "Great Tusk" = "greattusk" /\
  Forall (fun c => Sprites.isAlnum c = true \/ c = "-"%char)
         (list_ascii_of_string (Sprites.toSpriteId "Landorus-Therian")).
Proof.
  assert (Hascii : Sprites.asciiOnly "Landorus-Therian").
  { unfold Sprites.asciiOnly. cbn [list_ascii_of_string].
    repeat constructor; cbn; lia. }
  split; [exact Hascii|]. repeat (split; [reflexivity|]).
  exact (proj1 (toSpriteId_shape "Landorus-Therian" Hascii)).
Defined.

End SpriteExamples.
